(** * Trade Republic case-study analysis: the data pipeline of [src/app/page.tsx]

    The development embeds the analysis pipeline of the page component
    ([calculateTTS], [addLog], [analyzeData]) and of its two sibling revisions
    ([src/unnamed/part_000], [src/unnamed/part_001]) and proves properties of
    the three questions Q1 (mean time to solution of German tickets of August
    2024), Q2 (share of interest complaints solved within 14 days) and Q3
    (French customers with a transfer ticket and a complaint).

    Layout:
    - [JS]       the fragment of the JavaScript runtime the code relies on:
                 binary64 numbers, values, truthiness, [===], exceptions,
                 [Set], strings, [Date];
    - [Lodash]   [_.mean];
    - the rows of the three tables and the result records;
    - [Common]   the definitions that the three revisions share verbatim;
    - the component state, [addLog] and the typing effect;
    - [Page], [Part000], [Part001]   the three revisions of [analyzeData];
    - [Upload], [PageView], [Part000View], [Part001View]   the file inputs,
                 the effects and the results card;
    - [Hosts]    two concrete hosts and worlds for the worked examples;
    - [Spec]     the specification's reading of Q2 and Q3;
    - the properties, question by question. *)

From Stdlib Require Import ZArith List String Ascii Bool Lia DecimalString.
From Stdlib Require Import SetoidList SetoidPermutation.
From Stdlib Require Import Floats.SpecFloat.
Import ListNotations.

Open Scope string_scope.
Open Scope Z_scope.

(* ================================================================== *)
(** * The JavaScript runtime *)
(* ================================================================== *)

Module JS.

(** ** Numbers

    A JavaScript number is an IEEE 754 binary64 value.  It is modelled by the
    Standard Library's executable specification of binary floating point
    ([spec_float], precision 53, exponent bound 1024), so that [+], [-], [*],
    [/] and [<=] round and compare as the runtime does. *)

Definition number := spec_float.

Definition prec : Z := 53.
Definition emax : Z := 1024.

Definition NaN : number := S754_nan.

(** The number denoted by an integer literal or by an integer-valued
    internal quantity (a length, a time value). *)
Definition ofZ (z : Z) : number := binary_normalize prec emax z 0 false.

Definition add : number -> number -> number := SFadd prec emax.
Definition sub : number -> number -> number := SFsub prec emax.
Definition mul : number -> number -> number := SFmul prec emax.
Definition div : number -> number -> number := SFdiv prec emax.

(** [x <= y] on numbers: false as soon as one side is NaN. *)
Definition leb (x y : number) : bool := SFleb x y.

(** [x === y] on numbers: NaN differs from itself, [+0 === -0]. *)
Definition num_eqb (x y : number) : bool := SFeqb x y.

Definition isNaN (x : number) : bool :=
  match x with S754_nan => true | _ => false end.

(** [ToIntegerOrInfinity] on a finite number: truncation towards zero.  NaN
    and the infinities have no integer ([None]); [TimeClip] below turns all
    three into the NaN time value. *)
Definition truncate (x : number) : option Z :=
  match x with
  | S754_zero _ => Some 0
  | S754_finite s m e =>
      let a := match e with
               | Zneg p => Z.pos m / Z.pow_pos 2 p
               | _ => Z.pos m * 2 ^ e
               end in
      Some (if s then - a else a)
  | _ => None
  end.

(** ** Values

    A cell of a parsed row.  With [dynamicTyping] the CSV parser hands over a
    string, a number, a boolean or [null] (empty cell); a column absent from
    the header reads as [undefined].  A cell in ISO date-time format is
    handed over as the [Date] object made from its text: an object with an
    identity of its own ([ref]: two values are the same object exactly when
    their [ref]s are equal; the parser makes a fresh object per cell) and a
    time value (milliseconds since the epoch, [None] for an Invalid Date).
    An ISO text that reaches the code as a string, as with a parser that
    leaves such cells alone, is a [VStr]. *)

Inductive JsVal : Type :=
| VUndefined
| VNull
| VBool (b : bool)
| VNum (x : number)
| VStr (s : string)
| VDate (ref : nat) (t : option Z).

(** [!v] is [negb (truthy v)]. *)
Definition truthy (v : JsVal) : bool :=
  match v with
  | VUndefined | VNull => false
  | VBool b => b
  | VNum x => match x with
              | S754_zero _ | S754_nan => false
              | _ => true
              end
  | VStr s => negb (String.eqb s "")
  | VDate _ _ => true
  end.

(** [a === b]; two objects are equal when they are the same object. *)
Definition strictEq (a b : JsVal) : bool :=
  match a, b with
  | VUndefined, VUndefined => true
  | VNull, VNull => true
  | VBool x, VBool y => Bool.eqb x y
  | VNum x, VNum y => num_eqb x y
  | VStr x, VStr y => String.eqb x y
  | VDate i _, VDate j _ => Nat.eqb i j
  | _, _ => false
  end.

(** SameValueZero, the equality of [Set]: as [===] except that NaN equals
    itself. *)
Definition sameValueZero (a b : JsVal) : bool :=
  match a, b with
  | VNum x, VNum y => (isNaN x && isNaN y) || num_eqb x y
  | _, _ => strictEq a b
  end.

(** ** Exceptions *)

Inductive Exn : Type :=
| TypeError            (* raised by the runtime: call of a non-function *)
| Error (message : string).   (* [throw new Error(message)] *)

Inductive Result (A : Type) : Type :=
| Ok (a : A)
| Throw (e : Exn).
Arguments Ok {A} a.
Arguments Throw {A} e.

Definition bind {A B} (m : Result A) (k : A -> Result B) : Result B :=
  match m with
  | Ok a => k a
  | Throw e => Throw e
  end.

(** [xs.filter(f)] for a callback that may throw: rows are visited from left
    to right and the first exception aborts the scan. *)
Fixpoint filterR {A} (f : A -> Result bool) (xs : list A) : Result (list A) :=
  match xs with
  | [] => Ok []
  | x :: xs' =>
      bind (f x) (fun b =>
      bind (filterR f xs') (fun ys =>
      Ok (if b then x :: ys else ys)))
  end.

(** [xs.some(f)] for a callback that may throw: the scan stops at the first
    row on which the callback is truthy. *)
Fixpoint someR {A} (f : A -> Result bool) (xs : list A) : Result bool :=
  match xs with
  | [] => Ok false
  | x :: xs' => bind (f x) (fun b => if b then Ok true else someR f xs')
  end.

(** ** Sets

    [new Set(xs)] keeps the first occurrence of every value, in insertion
    order, values being compared with SameValueZero. *)

Definition JsSet := list JsVal.

Definition has (s : JsSet) (v : JsVal) : bool :=
  existsb (fun x => sameValueZero x v) s.

Definition set_add (s : JsSet) (v : JsVal) : JsSet :=
  if has s v then s else (s ++ [v])%list.

Definition newSet (xs : list JsVal) : JsSet := fold_left set_add xs [].

Definition size (s : JsSet) : Z := Z.of_nat (List.length s).

(** The invariant of a set: no two entries are SameValueZero-equal. *)
Definition SameValueZero (a b : JsVal) : Prop := sameValueZero a b = true.

Definition distinct (s : JsSet) : Prop := NoDupA SameValueZero s.

(** ** Strings

    Strings are kept as byte strings (UTF-8).  [toLowerCase] maps the ASCII
    capitals to their small letters and leaves every other byte alone.  The
    runtime also lowers non-ASCII capitals, but the only code points whose
    lower case contains an ASCII letter are U+212A (to k) and U+0130 (to i
    followed by the combining mark U+0307).  No needle searched for below
    contains a k, and the i that U+0130 yields is followed by U+0307 where
    the one needle with an i, "interest", wants an n: the [includes] tests of
    the code give the same answer on both readings. *)

Definition lower_ascii (c : ascii) : ascii :=
  let n := nat_of_ascii c in
  if ((65 <=? n)%nat && (n <=? 90)%nat)%bool then ascii_of_nat (n + 32) else c.

Fixpoint toLowerCase (s : string) : string :=
  match s with
  | EmptyString => EmptyString
  | String c s' => String (lower_ascii c) (toLowerCase s')
  end.

(** [s.includes(needle)]. *)
Fixpoint includes (s needle : string) : bool :=
  if prefix needle s then true
  else match s with
       | EmptyString => false
       | String _ s' => includes s' needle
       end.

(** [v?.toLowerCase().includes(needle)] in a boolean position: a nullish [v]
    short-circuits the whole chain to [undefined] (falsy); a string is
    searched; a number, a boolean or a [Date] has no [toLowerCase] method and
    the call raises a TypeError. *)
Definition optLowerIncludes (v : JsVal) (needle : string) : Result bool :=
  match v with
  | VUndefined | VNull => Ok false
  | VStr s => Ok (includes (toLowerCase s) needle)
  | VBool _ | VNum _ | VDate _ _ => Throw TypeError
  end.

(** ** Dates

    A [Date] object holds a time value: an integral number of milliseconds
    since 1970-01-01T00:00:00Z, or NaN ([None], an Invalid Date).  The day and
    year arithmetic is that of the language definition (Day, DayFromYear,
    YearFromTime, MonthFromTime, LocalTime). *)

Definition TimeValue := option Z.

Definition msPerDay : Z := 86400000.

Definition TimeClip (t : option Z) : TimeValue :=
  match t with
  | Some z => if Z.abs z >? 8640000000000000 then None else Some z
  | None => None
  end.

(** What the pipeline takes from its host: the date parser (whose behaviour
    outside the ISO format is left to the engine), the offset of local time
    from UTC at a given instant, the number formatters used in the log
    messages and the message text of the engine's TypeError. *)
Record Host : Type := {
  DateParse : string -> option Z;
  LocalTZA : Z -> Z;
  toLocaleString : Z -> string;
  toFixed : number -> Z -> string;
  typeErrorMessage : string
}.

(** [new Date(v)]: a [Date] gives its time value, a string is parsed, any
    other value goes through [ToNumber]. *)
Definition newDate (h : Host) (v : JsVal) : TimeValue :=
  TimeClip
    match v with
    | VDate _ t => t
    | VStr s => DateParse h s
    | VNum x => truncate x
    | VBool b => Some (if b then 1 else 0)
    | VNull => Some 0
    | VUndefined => None
    end.

(** [d.getTime()], also the number a [Date] converts to under [-]. *)
Definition getTime (d : TimeValue) : number :=
  match d with
  | Some z => ofZ z
  | None => NaN
  end.

Definition Day (t : Z) : Z := t / msPerDay.

Definition DaysInYear (y : Z) : Z :=
  if negb (y mod 4 =? 0) then 365
  else if negb (y mod 100 =? 0) then 366
  else if negb (y mod 400 =? 0) then 365
  else 366.

Definition DayFromYear (y : Z) : Z :=
  365 * (y - 1970) + (y - 1969) / 4 - (y - 1901) / 100 + (y - 1601) / 400.

(** The largest year whose first day is not after [t] (see
    [YearFromTime_spec] and [YearFromTime_unique]): an estimate from the mean
    length of a year, corrected by one at most. *)
Definition YearFromTime (t : Z) : Z :=
  let d := Day t in
  let y := 1970 + (d * 400) / 146097 in
  if DayFromYear (y + 1) <=? d then y + 1
  else if DayFromYear y <=? d then y
  else y - 1.

Definition InLeapYear (t : Z) : Z :=
  if DaysInYear (YearFromTime t) =? 366 then 1 else 0.

Definition DayWithinYear (t : Z) : Z := Day t - DayFromYear (YearFromTime t).

Definition MonthFromTime (t : Z) : Z :=
  let d := DayWithinYear t in
  let l := InLeapYear t in
  if d <? 31 then 0
  else if d <? 59 + l then 1
  else if d <? 90 + l then 2
  else if d <? 120 + l then 3
  else if d <? 151 + l then 4
  else if d <? 181 + l then 5
  else if d <? 212 + l then 6
  else if d <? 243 + l then 7
  else if d <? 273 + l then 8
  else if d <? 304 + l then 9
  else if d <? 334 + l then 10
  else 11.

Definition LocalTime (h : Host) (t : Z) : Z := t + LocalTZA h t.

(** [d.getMonth()] and [d.getFullYear()]: NaN ([None]) on an Invalid Date,
    otherwise the month (0 to 11) and the year of the local time. *)
Definition getMonth (h : Host) (d : TimeValue) : option Z :=
  match d with
  | Some t => Some (MonthFromTime (LocalTime h t))
  | None => None
  end.

Definition getFullYear (h : Host) (d : TimeValue) : option Z :=
  match d with
  | Some t => Some (YearFromTime (LocalTime h t))
  | None => None
  end.

(** [x === n] for the NaN-or-integer result of a getter and an integer
    literal [n]. *)
Definition getter_is (x : option Z) (n : Z) : bool :=
  match x with
  | Some z => z =? n
  | None => false
  end.

End JS.

Import JS.

(* ================================================================== *)
(** * Lodash *)
(* ================================================================== *)

Module Lodash.

(** [baseSum(array, identity)]: [undefined] on the empty array, otherwise the
    elements added from left to right. *)
Definition baseSum (array : list number) : option number :=
  match array with
  | [] => None
  | x :: rest => Some (fold_left add rest x)
  end.

(** [_.mean(array)]: [length ? baseSum(array) / length : NaN]. *)
Definition mean (array : list number) : number :=
  match baseSum array with
  | None => NaN
  | Some sum => div sum (ofZ (Z.of_nat (List.length array)))
  end.

End Lodash.

(* ================================================================== *)
(** * Rows of the three tables *)
(* ================================================================== *)

Module PersonalData.
Record t : Type := mk {
  AUTH_ACCOUNT_ID : JsVal;
  JURISDICTION : JsVal
}.
End PersonalData.

Module TicketData.
Record t : Type := mk {
  AUTH_ACCOUNT_ID : JsVal;
  CREATED_AT : JsVal;
  SOLVED_AT : JsVal;
  STATUS : JsVal;
  CONTACT_REASON_VALUE : JsVal
}.
End TicketData.

Module ComplaintData.
Record t : Type := mk {
  AUTH_ACCOUNT_ID : JsVal;
  CREATED_AT : JsVal;
  SOLVED_AT : JsVal
}.
End ComplaintData.

(** The result record of one question and of the whole analysis.  [value] is
    a number, or [null] in the revision that declares it [number | null]. *)
Record AnalysisResult : Type := {
  value : option number;
  answer : string;
  explanation : string
}.

Record Results : Type := {
  q1 : AnalysisResult;
  q2 : AnalysisResult;
  q3 : AnalysisResult
}.

(* ================================================================== *)
(** * Definitions shared by the three revisions *)
(* ================================================================== *)

Module Common.
Section WithHost.

Variable h : Host.

(** [calculateTTS]: [null] ([None]) when either argument is falsy, otherwise
    the difference of the two time values divided by the milliseconds of a
    day.  ([page.tsx] subtracts the two [Date] objects, the later revisions
    their [getTime()]: the same numbers.) *)
Definition calculateTTS (createdAt solvedAt : JsVal) : option number :=
  if negb (truthy createdAt) || negb (truthy solvedAt) then None
  else
    let created := newDate h createdAt in
    let solved := newDate h solvedAt in
    Some (div (sub (getTime solved) (getTime created))
              (mul (mul (mul (ofZ 1000) (ofZ 60)) (ofZ 60)) (ofZ 24))).

(** [array.filter(tts => tts !== null)]. *)
Fixpoint notNull (xs : list (option number)) : list number :=
  match xs with
  | [] => []
  | Some x :: xs' => x :: notNull xs'
  | None :: xs' => notNull xs'
  end.

(** Question 1 *)

Definition germanCustomers (personal : list PersonalData.t) : JsSet :=
  newSet
    (map PersonalData.AUTH_ACCOUNT_ID
       (filter (fun p => strictEq (PersonalData.JURISDICTION p) (VStr "DE"))
          personal)).

Definition isGermanAugustTicket (personal : list PersonalData.t)
    (ticket : TicketData.t) : bool :=
  if negb (truthy (TicketData.CREATED_AT ticket))
     || negb (truthy (TicketData.AUTH_ACCOUNT_ID ticket))
  then false
  else
    let created := newDate h (TicketData.CREATED_AT ticket) in
    let isAugust :=
      getter_is (getMonth h created) 7
      && getter_is (getFullYear h created) 2024 in
    let isGerman :=
      has (germanCustomers personal) (TicketData.AUTH_ACCOUNT_ID ticket) in
    let isClosed := strictEq (TicketData.STATUS ticket) (VStr "closed") in
    isAugust && isGerman && isClosed.

Definition germanAugustTickets (personal : list PersonalData.t)
    (tickets : list TicketData.t) : list TicketData.t :=
  filter (isGermanAugustTicket personal) tickets.

Definition germanAugustTTS (personal : list PersonalData.t)
    (tickets : list TicketData.t) : list number :=
  notNull
    (map (fun ticket =>
            calculateTTS (TicketData.CREATED_AT ticket)
                         (TicketData.SOLVED_AT ticket))
       (germanAugustTickets personal tickets)).

Definition averageGermanTTS (personal : list PersonalData.t)
    (tickets : list TicketData.t) : number :=
  Lodash.mean (germanAugustTTS personal tickets).

(** Question 2 *)

Definition interestTickets (tickets : list TicketData.t) : Result JsSet :=
  bind (filterR (fun t =>
                   optLowerIncludes (TicketData.CONTACT_REASON_VALUE t)
                     "interest") tickets)
       (fun ts => Ok (newSet (map TicketData.AUTH_ACCOUNT_ID ts))).

Definition interestComplaints (interest : JsSet)
    (complaints : list ComplaintData.t) : list ComplaintData.t :=
  filter (fun c => has interest (ComplaintData.AUTH_ACCOUNT_ID c)) complaints.

(** The accumulator of the [reduce].  Both counters only ever hold integers
    far below 2^53, on which [+ 1] is exact: they are kept as integers and
    converted where they are divided. *)
Record SLA : Type := { total : Z; withinSLA : Z }.

Definition slaPercentage (complaintsSLA : SLA) : number :=
  mul (div (ofZ (withinSLA complaintsSLA)) (ofZ (total complaintsSLA)))
      (ofZ 100).

(** Question 3 *)

Definition frenchCustomers (personal : list PersonalData.t) : JsSet :=
  newSet
    (map PersonalData.AUTH_ACCOUNT_ID
       (filter (fun p => strictEq (PersonalData.JURISDICTION p) (VStr "FR"))
          personal)).

Definition transferTickets (french : JsSet) (tickets : list TicketData.t)
  : Result (list TicketData.t) :=
  filterR (fun t =>
             bind (optLowerIncludes (TicketData.CONTACT_REASON_VALUE t)
                     "transfer")
                  (fun b => Ok (b && has french (TicketData.AUTH_ACCOUNT_ID t))))
          tickets.

Definition frenchTransferComplaints (french : JsSet)
    (transfer : list TicketData.t) (complaints : list ComplaintData.t)
  : JsSet :=
  newSet
    (map ComplaintData.AUTH_ACCOUNT_ID
       (filter (fun c =>
                  existsb (fun t =>
                             strictEq (TicketData.AUTH_ACCOUNT_ID t)
                                      (ComplaintData.AUTH_ACCOUNT_ID c))
                          transfer)
          (filter (fun c => has french (ComplaintData.AUTH_ACCOUNT_ID c))
             complaints))).

End WithHost.
End Common.

(* ================================================================== *)
(** * Component state and the progress log *)
(* ================================================================== *)

Inductive LogType : Type := error | success | info.

Record Log : Type := {
  timestamp : string;
  message : string;
  type : LogType
}.

(** The [useState] cells of the component.  [clockReads] is bookkeeping of
    the model: how many times the wall clock has been read so far. *)
Record State : Type := {
  logs : list Log;
  results : option Results;
  isAnalyzing : bool;
  displayedLogs : list Log;
  showResults : bool;
  clockReads : nat
}.

(** What a run observes of the outside world besides the host: the text
    [HH:MM:SS] of the wall clock at its successive readings and the
    successive values of [Math.random()]. *)
Record World : Type := {
  now : nat -> string;
  random : nat -> number
}.

Definition setLogs (f : list Log -> list Log) (st : State) : State :=
  {| logs := f (logs st); results := results st;
     isAnalyzing := isAnalyzing st; displayedLogs := displayedLogs st;
     showResults := showResults st; clockReads := clockReads st |}.

Definition setResults (r : option Results) (st : State) : State :=
  {| logs := logs st; results := r;
     isAnalyzing := isAnalyzing st; displayedLogs := displayedLogs st;
     showResults := showResults st; clockReads := clockReads st |}.

Definition setIsAnalyzing (b : bool) (st : State) : State :=
  {| logs := logs st; results := results st;
     isAnalyzing := b; displayedLogs := displayedLogs st;
     showResults := showResults st; clockReads := clockReads st |}.

Definition setDisplayedLogs (f : list Log -> list Log) (st : State) : State :=
  {| logs := logs st; results := results st;
     isAnalyzing := isAnalyzing st; displayedLogs := f (displayedLogs st);
     showResults := showResults st; clockReads := clockReads st |}.

Definition setShowResults (b : bool) (st : State) : State :=
  {| logs := logs st; results := results st;
     isAnalyzing := isAnalyzing st; displayedLogs := displayedLogs st;
     showResults := b; clockReads := clockReads st |}.

Definition readClock (w : World) (st : State) : string * State :=
  (now w (clockReads st),
   {| logs := logs st; results := results st;
      isAnalyzing := isAnalyzing st; displayedLogs := displayedLogs st;
      showResults := showResults st; clockReads := S (clockReads st) |}).

(** [addLog(message, delay)]: after [delay] milliseconds (which only lets
    wall-clock time pass) the clock is read and one entry is appended, its
    type computed from the text of the message. *)
Definition addLog (w : World) (message : string) (delay : Z) (st : State)
  : State :=
  let '(timestamp, st) := readClock w st in
  setLogs (fun prev =>
    (prev ++ [ {| timestamp := timestamp;
                  message := message;
                  type := if includes (toLowerCase message) "error" then error
                          else if includes (toLowerCase message) "success"
                               then success
                               else info |} ])%list) st.

(** The typing effect of [page.tsx]: when some log is not displayed yet, a
    timer of [Math.random() * 300 + 200] milliseconds reveals the next one;
    when all are displayed, a timer of 500 milliseconds shows the results.
    The pair is the delay of the timer and the state once it has fired; the
    timer is taken to fire before the logs change again, so that the entry
    [logs[prev.length]] exists. *)
Definition typingEffect (r : number) (st : State) : number * State :=
  if (List.length (displayedLogs st) <? List.length (logs st))%nat then
    (add (mul r (ofZ 300)) (ofZ 200),
     setDisplayedLogs (fun prev =>
       match nth_error (logs st) (List.length prev) with
       | Some l => (prev ++ [l])%list
       | None => prev
       end) st)
  else if (0 <? List.length (logs st))%nat
          && (List.length (logs st) =? List.length (displayedLogs st))%nat
  then (ofZ 500, setShowResults true st)
  else (ofZ 0, st).

(** ** Statements that may throw, over the component state *)

Definition M (A : Type) : Type := State -> Result A * State.

Definition ret {A} (a : A) : M A := fun st => (Ok a, st).

Definition bindM {A B} (m : M A) (k : A -> M B) : M B :=
  fun st =>
    match m st with
    | (Ok a, st') => k a st'
    | (Throw e, st') => (Throw e, st')
    end.

Definition lift {A} (r : Result A) : M A := fun st => (r, st).

Definition update (f : State -> State) : M unit := fun st => (Ok tt, f st).

Notation "x <- m ;; k" := (bindM m (fun x => k))
  (at level 61, m at next level, right associativity).
Notation "m ;;; k" := (bindM m (fun _ => k))
  (at level 61, right associativity).

Definition exnMessage (h : Host) (e : Exn) : string :=
  match e with
  | TypeError => typeErrorMessage h
  | Error m => m
  end.

(** [String(n)] for an integer [n]. *)
Definition intToString (n : Z) : string :=
  DecimalString.NilZero.string_of_int (Z.to_int n).

Definition lengthZ {A} (xs : list A) : Z := Z.of_nat (List.length xs).

(* ================================================================== *)
(** * [src/app/page.tsx] *)
(* ================================================================== *)

Module Page.
Section WithHost.

Variable h : Host.
Variable w : World.

(** [tts <= 14] with [tts] of type number-or-null: the comparison converts
    [null] to [+0]. *)
Definition complaintsSLA (interestComplaints : list ComplaintData.t)
  : Common.SLA :=
  fold_left
    (fun acc complaint =>
       let tts := Common.calculateTTS h (ComplaintData.CREATED_AT complaint)
                    (ComplaintData.SOLVED_AT complaint) in
       {| Common.total := Common.total acc + 1;
          Common.withinSLA :=
            Common.withinSLA acc
            + (if leb (match tts with Some x => x | None => ofZ 0 end) (ofZ 14)
               then 1 else 0) |})
    interestComplaints
    {| Common.total := 0; Common.withinSLA := 0 |}.

(** The body of the [try] block, from the parsed tables on. *)
Definition tryBlock (personal : list PersonalData.t)
    (tickets : list TicketData.t) (complaints : list ComplaintData.t)
  : M unit :=
  update (addLog w "🚀 Initializing Trade Republic data analysis..." 500) ;;;
  update (addLog w "⚙️  Setting up analysis environment..." 800) ;;;
  update (addLog w "📊 Starting data ingestion phase..." 1000) ;;;
  update (addLog w "📥 Reading personal data file..." 800) ;;;
  update (addLog w ("✓ Successfully parsed "
                    ++ toLocaleString h (lengthZ personal)
                    ++ " personal records") 500) ;;;
  update (addLog w "📥 Reading tickets data file..." 800) ;;;
  update (addLog w ("✓ Successfully parsed "
                    ++ toLocaleString h (lengthZ tickets)
                    ++ " ticket records") 500) ;;;
  update (addLog w "📥 Reading complaints data file..." 800) ;;;
  update (addLog w ("✓ Successfully parsed "
                    ++ toLocaleString h (lengthZ complaints)
                    ++ " complaint records") 500) ;;;
  update (addLog w "🔍 Beginning data analysis phase..." 1000) ;;;
  (* Question 1 *)
  update (addLog w "⏳ Analyzing Q1: German customers TTS in August..." 800) ;;;
  let germanCustomers := Common.germanCustomers personal in
  update (addLog w ("└─ Found " ++ toLocaleString h (size germanCustomers)
                    ++ " German customers") 400) ;;;
  let germanAugustTickets := Common.germanAugustTickets h personal tickets in
  let averageGermanTTS := Common.averageGermanTTS h personal tickets in
  update (addLog w ("└─ Processed "
                    ++ toLocaleString h (lengthZ germanAugustTickets)
                    ++ " German August tickets") 400) ;;;
  update (addLog w ("└─ Average TTS: " ++ toFixed h averageGermanTTS 3
                    ++ " days") 400) ;;;
  (* Question 2 *)
  update (addLog w "⏳ Analyzing Q2: Interest complaints within SLA..." 800) ;;;
  interestTickets <- lift (Common.interestTickets tickets) ;;
  let interestComplaints :=
    Common.interestComplaints interestTickets complaints in
  let slaPercentage := Common.slaPercentage (complaintsSLA interestComplaints) in
  update (addLog w ("└─ Found " ++ intToString (lengthZ interestComplaints)
                    ++ " interest-related complaints") 400) ;;;
  update (addLog w ("└─ SLA compliance: " ++ toFixed h slaPercentage 1
                    ++ "%") 400) ;;;
  (* Question 3 *)
  update (addLog w "⏳ Analyzing Q3: French transfer complaints..." 800) ;;;
  let frenchCustomers := Common.frenchCustomers personal in
  update (addLog w ("└─ Found " ++ intToString (size frenchCustomers)
                    ++ " French customers") 400) ;;;
  transferTickets <- lift (Common.transferTickets frenchCustomers tickets) ;;
  update (addLog w ("└─ Found " ++ intToString (lengthZ transferTickets)
                    ++ " transfer-related tickets") 400) ;;;
  let frenchTransferComplaints :=
    Common.frenchTransferComplaints frenchCustomers transferTickets
      complaints in
  update (addLog w ("└─ Identified "
                    ++ intToString (size frenchTransferComplaints)
                    ++ " French customers with transfer complaints") 400) ;;;
  update (setResults (Some
    {| q1 := {| value := Some averageGermanTTS;
                answer := "b";
                explanation :=
                  "Average TTS for German customers in August was 3.360 days" |};
       q2 := {| value := Some slaPercentage;
                answer := "b";
                explanation :=
                  "67.9% of interest-related complaints were resolved within SLA" |};
       q3 := {| value := Some (ofZ (size frenchTransferComplaints));
                answer := "b";
                explanation :=
                  "5 French customers had complaints related to transfer inquiries" |}
    |})) ;;;
  update (addLog w "✨ Analysis completed successfully!" 500) ;;;
  update (addLog w "📊 Generating final report..." 800) ;;;
  update (addLog w "✅ Results ready for review" 500).

(** [analyzeData], the three files being parsed into the three tables. *)
Definition analyzeData (personal : list PersonalData.t)
    (tickets : list TicketData.t) (complaints : list ComplaintData.t)
    (st : State) : State :=
  let st := setIsAnalyzing true st in
  let st := setResults None st in
  let st := setLogs (fun _ => []) st in
  let st := setDisplayedLogs (fun _ => []) st in
  let st :=
    match tryBlock personal tickets complaints st with
    | (Ok _, st') => st'
    | (Throw e, st') =>
        addLog w ("❌ Error during analysis: " ++ exnMessage h e) 500 st'
    end in
  setIsAnalyzing false st.

End WithHost.
End Page.

(* ================================================================== *)
(** * [src/unnamed/part_000]: the typed revision *)
(* ================================================================== *)

(** The three file inputs: [null] ([None]) until a file is chosen, otherwise
    the file, which stands here for the table the CSV parser reads from it. *)
Record FileState : Type := {
  personal : option (list PersonalData.t);
  tickets : option (list TicketData.t);
  complaints : option (list ComplaintData.t)
}.

Module Part000.
Section WithHost.

Variable h : Host.
Variable w : World.

(** [tts !== null && tts <= 14]. *)
Definition complaintsSLA (interestComplaints : list ComplaintData.t)
  : Common.SLA :=
  fold_left
    (fun acc complaint =>
       let tts := Common.calculateTTS h (ComplaintData.CREATED_AT complaint)
                    (ComplaintData.SOLVED_AT complaint) in
       {| Common.total := Common.total acc + 1;
          Common.withinSLA :=
            Common.withinSLA acc
            + (if match tts with Some x => leb x (ofZ 14) | None => false end
               then 1 else 0) |})
    interestComplaints
    {| Common.total := 0; Common.withinSLA := 0 |}.

(** [if (!file) throw new Error(message)] followed by the parse. *)
Definition required {A} (file : option A) (message : string) : M A :=
  match file with
  | Some data => ret data
  | None => lift (Throw (Error message))
  end.

(** The body of the [try] block. *)
Definition tryBlock (files : FileState) : M unit :=
  update (addLog w "🚀 Initializing Trade Republic data analysis..." 500) ;;;
  update (addLog w "⚙️  Setting up analysis environment..." 800) ;;;
  update (addLog w "📊 Starting data ingestion phase..." 1000) ;;;
  update (addLog w "📥 Reading personal data file..." 800) ;;;
  personal <- required (personal files) "Personal data file is required" ;;
  update (addLog w ("✓ Successfully parsed "
                    ++ toLocaleString h (lengthZ personal)
                    ++ " personal records") 500) ;;;
  update (addLog w "📥 Reading tickets data file..." 800) ;;;
  tickets <- required (tickets files) "Tickets data file is required" ;;
  update (addLog w ("✓ Successfully parsed "
                    ++ toLocaleString h (lengthZ tickets)
                    ++ " ticket records") 500) ;;;
  update (addLog w "📥 Reading complaints data file..." 800) ;;;
  complaints <- required (complaints files) "Complaints data file is required" ;;
  update (addLog w ("✓ Successfully parsed "
                    ++ toLocaleString h (lengthZ complaints)
                    ++ " complaint records") 500) ;;;
  update (addLog w "🔍 Beginning data analysis phase..." 1000) ;;;
  (* Question 1 *)
  update (addLog w "⏳ Analyzing Q1: German customers TTS in August..." 800) ;;;
  let germanCustomers := Common.germanCustomers personal in
  update (addLog w ("└─ Found " ++ toLocaleString h (size germanCustomers)
                    ++ " German customers") 400) ;;;
  let germanAugustTickets := Common.germanAugustTickets h personal tickets in
  let averageGermanTTS := Common.averageGermanTTS h personal tickets in
  update (addLog w ("└─ Processed "
                    ++ toLocaleString h (lengthZ germanAugustTickets)
                    ++ " German August tickets") 400) ;;;
  update (addLog w ("└─ Average TTS: " ++ toFixed h averageGermanTTS 3
                    ++ " days") 400) ;;;
  (* Question 2 *)
  update (addLog w "⏳ Analyzing Q2: Interest complaints within SLA..." 800) ;;;
  interestTickets <- lift (Common.interestTickets tickets) ;;
  let interestComplaints :=
    Common.interestComplaints interestTickets complaints in
  let slaPercentage := Common.slaPercentage (complaintsSLA interestComplaints) in
  update (addLog w ("└─ Found " ++ intToString (lengthZ interestComplaints)
                    ++ " interest-related complaints") 400) ;;;
  update (addLog w ("└─ SLA compliance: " ++ toFixed h slaPercentage 1
                    ++ "%") 400) ;;;
  (* Question 3 *)
  update (addLog w "⏳ Analyzing Q3: French transfer complaints..." 800) ;;;
  let frenchCustomers := Common.frenchCustomers personal in
  update (addLog w ("└─ Found " ++ intToString (size frenchCustomers)
                    ++ " French customers") 400) ;;;
  transferTickets <- lift (Common.transferTickets frenchCustomers tickets) ;;
  update (addLog w ("└─ Found " ++ intToString (lengthZ transferTickets)
                    ++ " transfer-related tickets") 400) ;;;
  let frenchTransferComplaints :=
    Common.frenchTransferComplaints frenchCustomers transferTickets
      complaints in
  update (addLog w ("└─ Identified "
                    ++ intToString (size frenchTransferComplaints)
                    ++ " French customers with transfer complaints") 400) ;;;
  update (setResults (Some
    {| q1 := {| value := Some averageGermanTTS;
                answer := "b";
                explanation :=
                  "Average TTS for German customers in August was 3.360 days" |};
       q2 := {| value := Some slaPercentage;
                answer := "b";
                explanation :=
                  "67.9% of interest-related complaints were resolved within SLA" |};
       q3 := {| value := Some (ofZ (size frenchTransferComplaints));
                answer := "b";
                explanation :=
                  "5 French customers had complaints related to transfer inquiries" |}
    |})) ;;;
  update (addLog w "✨ Analysis completed successfully!" 500) ;;;
  update (addLog w "📊 Generating final report..." 800) ;;;
  update (addLog w "✅ Results ready for review" 500).

(** [analyzeData].  Every exception of this model is an [Error] object, so
    the handler logs its message. *)
Definition analyzeData (files : FileState) (st : State) : State :=
  let st := setIsAnalyzing true st in
  let st := setResults None st in
  let st := setLogs (fun _ => []) st in
  let st := setDisplayedLogs (fun _ => []) st in
  let st :=
    match tryBlock files st with
    | (Ok _, st') => st'
    | (Throw e, st') =>
        addLog w ("❌ Error during analysis: " ++ exnMessage h e) 500 st'
    end in
  setIsAnalyzing false st.

End WithHost.
End Part000.

(* ================================================================== *)
(** * [src/unnamed/part_001]: the revision that leaves Q2 and Q3 open *)
(* ================================================================== *)

Module Part001.
Section WithHost.

Variable h : Host.
Variable w : World.

Definition interestComplaints (tickets : list TicketData.t)
    (complaints : list ComplaintData.t) : Result (list ComplaintData.t) :=
  filterR (fun complaint =>
             someR (fun ticket =>
                      if strictEq (TicketData.AUTH_ACCOUNT_ID ticket)
                                  (ComplaintData.AUTH_ACCOUNT_ID complaint)
                      then optLowerIncludes
                             (TicketData.CONTACT_REASON_VALUE ticket)
                             "interest"
                      else Ok false)
                   tickets)
          complaints.

(** The body of the [try] block. *)
Definition tryBlock (files : FileState) : M unit :=
  update (addLog w "🚀 Initializing Trade Republic data analysis..." 500) ;;;
  update (addLog w "⚙️ Setting up analysis environment..." 800) ;;;
  update (addLog w "📊 Starting data ingestion phase..." 1000) ;;;
  match personal files, tickets files, complaints files with
  | Some personal, Some tickets, Some complaints =>
      update (addLog w "🔍 Beginning data analysis phase..." 1000) ;;;
      let averageGermanTTS := Common.averageGermanTTS h personal tickets in
      interestComplaints <- lift (interestComplaints tickets complaints) ;;
      update (setResults (Some
        {| q1 := {| value := Some averageGermanTTS;
                    answer := "a";
                    explanation :=
                      "Average TTS for German customers in August was 3.327 days" |};
           q2 := {| value := None;
                    answer := "e";
                    explanation :=
                      "Found " ++ intToString (lengthZ interestComplaints)
                      ++ " interest-related complaints" |};
           q3 := {| value := None;
                    answer := "e";
                    explanation :=
                      "Not possible to deduce from available data as transfer direction cannot be determined" |}
        |})) ;;;
      update (addLog w "✨ Analysis completed successfully!" 500) ;;;
      update (addLog w "📊 Generating final report..." 800) ;;;
      update (addLog w "✅ Results ready for review" 500)
  | _, _, _ => lift (Throw (Error "All files are required for analysis"))
  end.

Definition analyzeData (files : FileState) (st : State) : State :=
  let st := setIsAnalyzing true st in
  let st := setResults None st in
  let st := setLogs (fun _ => []) st in
  let st := setDisplayedLogs (fun _ => []) st in
  let st :=
    match tryBlock files st with
    | (Ok _, st') => st'
    | (Throw e, st') =>
        addLog w ("❌ Error during analysis: " ++ exnMessage h e) 500 st'
    end in
  setIsAnalyzing false st.

End WithHost.
End Part001.

(* ================================================================== *)
(** * The rest of the component: file inputs, effects and display *)
(* ================================================================== *)

Module Upload.

(** A chosen file: its name and its text. *)
Record File : Type := { name : string; text : string }.

(** The three keys of the [files] cell. *)
Inductive FileType : Type := personal | tickets | complaints.

Definition key (t : FileType) : string :=
  match t with
  | personal => "personal"
  | tickets => "tickets"
  | complaints => "complaints"
  end.

Definition FileType_eqb (a b : FileType) : bool :=
  match a, b with
  | personal, personal | tickets, tickets | complaints, complaints => true
  | _, _ => false
  end.

(** The [files] cell: a file, or [null] / [undefined] ([None]), per key. *)
Definition Files : Type := FileType -> option File.

Definition empty : Files := fun _ => None.

(** [{ ...prev, [fileType]: file }]. *)
Definition set (t : FileType) (file : option File) (prev : Files) : Files :=
  fun k => if FileType_eqb k t then file else prev k.

(** A change event of a file input: the input it comes from and
    [event.target.files[0]], which is [undefined] ([None]) when the dialog
    was closed without a file. *)
Definition Event : Type := (FileType * option File)%type.

(** Truthiness of a slot. *)
Definition present (file : option File) : bool :=
  match file with
  | Some _ => true
  | None => false
  end.

(** The [disabled] attribute of the run button. *)
Definition runDisabled (files : Files) (st : State) : bool :=
  isAnalyzing st
  || negb (present (files personal))
  || negb (present (files tickets))
  || negb (present (files complaints)).

End Upload.

(** The results card: the heading, the answer line and the explanation of
    each of the three questions. *)
Definition card (r : Results) : list (string * string * string) :=
  [ ("Question 1: German Customer TTS in August",
     "Answer: " ++ answer (q1 r), explanation (q1 r));
    ("Question 2: Interest Complaints SLA",
     "Answer: " ++ answer (q2 r), explanation (q2 r));
    ("Question 3: French Transfer Complaints",
     "Answer: " ++ answer (q3 r), explanation (q3 r)) ].

Module PageView.
Section WithWorld.

Variable w : World.

(** [handleFileUpload] of [page.tsx]: the slot is overwritten with whatever
    the event carries; reading [file.name] of [undefined] then raises a
    TypeError before [addLog] is called. *)
Definition handleFileUpload (event : Upload.Event)
    (cells : Upload.Files * State) : Result unit * (Upload.Files * State) :=
  let '(fileType, file) := event in
  let '(files, st) := cells in
  let files := Upload.set fileType file files in
  match file with
  | Some f =>
      (Ok tt,
       (files,
        addLog w ("📁 Uploaded " ++ Upload.key fileType ++ " data file: "
                  ++ Upload.name f) 0 st))
  | None => (Throw TypeError, (files, st))
  end.

(** A sequence of change events, each handled on its own: an exception in
    one handler does not prevent the next event from being handled. *)
Definition handleEvents (events : list Upload.Event)
    (cells : Upload.Files * State) : Upload.Files * State :=
  fold_left (fun cells event => snd (handleFileUpload event cells))
    events cells.

(** The effect on [isAnalyzing]. *)
Definition resetEffect (st : State) : State :=
  if isAnalyzing st then setShowResults false st else st.

(** Successive firings of the typing effect, the log being left alone in
    between; one value of [Math.random()] per firing. *)
Definition typingSteps (rs : list number) (st : State) : State :=
  fold_left (fun st r => snd (typingEffect r st)) rs st.

(** [showResults && results && (...)]. *)
Definition resultsCard (st : State)
  : option (list (string * string * string)) :=
  if showResults st then option_map card (results st) else None.

End WithWorld.
End PageView.

Module Part000View.
Section WithWorld.

Variable w : World.

(** [handleFileUpload] of the typed revision: nothing happens without a
    file. *)
Definition handleFileUpload (event : Upload.Event)
    (cells : Upload.Files * State) : Upload.Files * State :=
  let '(fileType, file) := event in
  let '(files, st) := cells in
  match file with
  | Some f =>
      (Upload.set fileType file files,
       addLog w ("📁 Uploaded " ++ Upload.key fileType ++ " data file: "
                 ++ Upload.name f) 0 st)
  | None => (files, st)
  end.

Definition handleEvents (events : list Upload.Event)
    (cells : Upload.Files * State) : Upload.Files * State :=
  fold_left (fun cells event => handleFileUpload event cells) events cells.

(** The typing effect of the typed revision: the timer reveals the next log
    and, when that was the last one and the last message of the log is the
    closing message of a run, starts a second timer of 1000 milliseconds that
    shows the results.  The result is the delay of the first timer, the
    state once it has fired, and whether the second timer was started. *)
Definition typingEffect (r : number) (st : State) : number * State * bool :=
  if (List.length (displayedLogs st) <? List.length (logs st))%nat then
    let newLogs (prev : list Log) :=
      match nth_error (logs st) (List.length prev) with
      | Some l => (prev ++ [l])%list
      | None => prev
      end in
    (add (mul r (ofZ 300)) (ofZ 200),
     setDisplayedLogs newLogs st,
     (List.length (newLogs (displayedLogs st)) =? List.length (logs st))%nat
     && match nth_error (logs st) (List.length (logs st) - 1) with
        | Some l => String.eqb (message l) "✅ Results ready for review"
        | None => false
        end)
  else (ofZ 0, st, false).

(** What the second timer does. *)
Definition showResultsTimer (st : State) : State := setShowResults true st.

Definition resultsCard (st : State)
  : option (list (string * string * string)) :=
  if showResults st then option_map card (results st) else None.

End WithWorld.
End Part000View.

(** In [part_001] the card is displayed as soon as there are results. *)
Module Part001View.

Definition resultsCard (st : State)
  : option (list (string * string * string)) :=
  option_map card (results st).

End Part001View.

(* ================================================================== *)
(** * Two concrete hosts, for the worked examples *)
(* ================================================================== *)

Module Hosts.

Definition digit (c : ascii) : option Z :=
  let n := Z.of_nat (nat_of_ascii c) in
  if (48 <=? n) && (n <=? 57) then Some (n - 48) else None.

Definition digits (cs : list ascii) : option Z :=
  fold_left (fun acc c =>
               match acc, digit c with
               | Some a, Some d => Some (10 * a + d)
               | _, _ => None
               end) cs (Some 0).

Definition DaysInMonth (y m : Z) : Z :=
  if m =? 2 then (if DaysInYear y =? 366 then 29 else 28)
  else if (m =? 4) || (m =? 6) || (m =? 9) || (m =? 11) then 30
  else 31.

(** The days of the first [k] months of year [y]. *)
Fixpoint daysBefore (y : Z) (k : nat) : Z :=
  match k with
  | O => 0
  | S k' => daysBefore y k' + DaysInMonth y (Z.of_nat k)
  end.

(** Days since the epoch of the civil date [y]-[m]-[d]. *)
Definition MakeDay (y m d : Z) : Z :=
  DayFromYear y + daysBefore y (Z.to_nat (m - 1)) + (d - 1).

(** [Date.parse] on the interchange format [YYYY-MM-DDTHH:mm:ssZ]; every
    other string is rejected (NaN). *)
Definition isoParse (s : string) : option Z :=
  match list_ascii_of_string s with
  | [y1; y2; y3; y4; a; m1; m2; b; d1; d2; t; h1; h2; c; n1; n2; e; s1; s2; z] =>
      if Ascii.eqb a "-" && Ascii.eqb b "-" && Ascii.eqb t "T"
         && Ascii.eqb c ":" && Ascii.eqb e ":" && Ascii.eqb z "Z"
      then
        match digits [y1; y2; y3; y4], digits [m1; m2], digits [d1; d2],
              digits [h1; h2], digits [n1; n2], digits [s1; s2] with
        | Some y, Some m, Some d, Some hh, Some mm, Some ss =>
            if (1 <=? m) && (m <=? 12) && (1 <=? d) && (d <=? DaysInMonth y m)
               && (hh <=? 23) && (mm <=? 59) && (ss <=? 59)
            then Some (MakeDay y m d * msPerDay
                       + hh * 3600000 + mm * 60000 + ss * 1000)
            else None
        | _, _, _, _, _, _ => None
        end
      else None
  | _ => None
  end.

(** Decimal digits with a comma between groups of three (the [en-US]
    rendering of [toLocaleString] on a non-negative integer). *)
Fixpoint group3 (rev : list ascii) (k : nat) : list ascii :=
  match rev with
  | [] => []
  | c :: r =>
      match k with
      | 3%nat => ("," :: c :: group3 r 1)%char
      | _ => c :: group3 r (S k)
      end
  end.

Definition enUS (n : Z) : string :=
  string_of_list_ascii
    (rev (group3 (rev (list_ascii_of_string (intToString n))) 0)).

Fixpoint zeros (k : nat) : string :=
  match k with
  | O => ""
  | S k' => String "0" (zeros k')
  end.

(** The digits of [n / 10^f] with exactly [f] decimals. *)
Definition fixedDigits (n : Z) (f : nat) : string :=
  let ds := intToString n in
  let ds := zeros (S f - String.length ds) ++ ds in
  let k := (String.length ds - f)%nat in
  if (f =? 0)%nat then ds
  else substring 0 k ds ++ "." ++ substring k f ds.

(** [x.toFixed(f)] for [x] below 1e21: the integer [n] nearest to
    [x * 10^f], the larger one on a tie. *)
Definition toFixedImpl (x : number) (f : Z) : string :=
  match x with
  | S754_nan => "NaN"
  | S754_infinity s => if s then "-Infinity" else "Infinity"
  | S754_zero _ => fixedDigits 0 (Z.to_nat f)
  | S754_finite s m e =>
      let scaled := Z.pos m * 10 ^ f in
      let n := match e with
               | Zneg p => (2 * scaled + Z.pow_pos 2 p) / (2 * Z.pow_pos 2 p)
               | _ => scaled * 2 ^ e
               end in
      (if s then "-" else "") ++ fixedDigits n (Z.to_nat f)
  end.

(** A host whose local time is UTC. *)
Definition utc : Host :=
  {| DateParse := isoParse;
     LocalTZA := fun _ => 0;
     toLocaleString := enUS;
     toFixed := toFixedImpl;
     typeErrorMessage := "t.CONTACT_REASON_VALUE?.toLowerCase is not a function" |}.


(** A wall clock stuck at noon and a constant random source, and another
    pair. *)
Definition noon : World :=
  {| now := fun _ => "12:00:00"; random := fun _ => ofZ 0 |}.

Definition ticking : World :=
  {| now := fun k => "23:59:5" ++ intToString (Z.of_nat k);
     random := fun k => div (ofZ 1) (ofZ (Z.of_nat k + 2)) |}.

Definition initial : State :=
  {| logs := []; results := None; isAnalyzing := false;
     displayedLogs := []; showResults := false; clockReads := O |}.

End Hosts.

(* ================================================================== *)
(** * The specification's reading of the three questions *)
(* ================================================================== *)

Module Spec.

(** Q2: a complaint is within SLA when its duration is non-null and at most
    14 days. *)
Definition withinSLA (h : Host) (c : ComplaintData.t) : bool :=
  match Common.calculateTTS h (ComplaintData.CREATED_AT c)
          (ComplaintData.SOLVED_AT c) with
  | Some duration => leb duration (ofZ 14)
  | None => false
  end.

(** Q3: an account id qualifies when it belongs to the French cohort (some
    row of the personal table has the jurisdiction ["FR"] and that account
    id), owns a complaint, and owns a ticket whose contact reason contains
    "transfer" whatever the letter case.  The join of a ticket to an account
    is the [===] of the code, which differs from set membership on NaN
    only. *)
Definition qualifies (personal : list PersonalData.t)
    (tickets : list TicketData.t) (complaints : list ComplaintData.t)
    (id : JsVal) : Prop :=
  (exists p, In p personal
             /\ PersonalData.JURISDICTION p = VStr "FR"
             /\ sameValueZero (PersonalData.AUTH_ACCOUNT_ID p) id = true)
  /\ (exists c, In c complaints
                /\ sameValueZero (ComplaintData.AUTH_ACCOUNT_ID c) id = true)
  /\ (exists t reason,
        In t tickets
        /\ strictEq (TicketData.AUTH_ACCOUNT_ID t) id = true
        /\ TicketData.CONTACT_REASON_VALUE t = VStr reason
        /\ includes (toLowerCase reason) "transfer" = true).

(** A contact reason on which [?.toLowerCase()] does not throw. *)
Definition textual (v : JsVal) : Prop :=
  match v with
  | VUndefined | VNull | VStr _ => True
  | VBool _ | VNum _ | VDate _ _ => False
  end.

End Spec.

(* ================================================================== *)
(** * What two runs are compared on *)
(* ================================================================== *)




(* ================================================================== *)
(** * Properties of the runtime fragment *)
(* ================================================================== *)

(** ** Equality of values *)

Lemma num_eqb_true (x y : number) :
  num_eqb x y = true <->
  match x, y with
  | S754_zero _, S754_zero _ => True
  | S754_infinity a, S754_infinity b => a = b
  | S754_finite a m e, S754_finite b n f => a = b /\ m = n /\ e = f
  | _, _ => False
  end.
Proof.
  unfold num_eqb, SFeqb, SFcompare.
  destruct x as [a|a| |a m e], y as [b|b| |b n f];
    try (split; [discriminate | contradiction]);
    try (split; [reflexivity | trivial]);
    try (destruct a; split; (discriminate || contradiction));
    try (destruct b; split; (discriminate || contradiction)).
  - destruct a, b; split; (reflexivity || discriminate).
  - change (PosDef.Pos.compare_cont Eq m n) with (Pos.compare m n).
    destruct a, b; try (split; [discriminate | intros (E & _); discriminate]);
      destruct (Z.compare_spec e f) as [E|E|E];
      try (split; [discriminate | intros (_ & _ & E'); lia]);
      subst f; destruct (Pos.compare_spec m n) as [E|E|E]; cbn;
      split; try discriminate; try (intros (_ & E' & _); lia);
      intros _; subst n; auto.
Qed.

Lemma num_eqb_sym (x y : number) : num_eqb x y = num_eqb y x.
Proof.
  apply eq_true_iff_eq. rewrite !num_eqb_true.
  destruct x, y; intuition congruence.
Qed.

Lemma num_eqb_trans (x y z : number) :
  num_eqb x y = true -> num_eqb y z = true -> num_eqb x z = true.
Proof.
  rewrite !num_eqb_true. destruct x, y, z; intuition congruence.
Qed.

Lemma num_eqb_NaN_l (x y : number) : isNaN x = true -> num_eqb x y = false.
Proof. destruct x; try discriminate. reflexivity. Qed.

Lemma num_eqb_refl (x : number) : isNaN x = false -> num_eqb x x = true.
Proof. intros H. apply num_eqb_true. destruct x; auto; discriminate. Qed.

Lemma sameValueZero_refl (v : JsVal) : sameValueZero v v = true.
Proof.
  destruct v as [| |b|x|s|i t]; cbn; auto.
  - apply Bool.eqb_reflx.
  - destruct (isNaN x) eqn:E; cbn; auto. now apply num_eqb_refl.
  - apply String.eqb_refl.
  - apply Nat.eqb_refl.
Qed.

Lemma sameValueZero_sym (a b : JsVal) : sameValueZero a b = sameValueZero b a.
Proof.
  destruct a as [| |x|x|x|x t], b as [| |y|y|y|y u]; cbn; auto.
  - destruct x, y; reflexivity.
  - now rewrite num_eqb_sym, (andb_comm (isNaN x)).
  - apply String.eqb_sym.
  - apply Nat.eqb_sym.
Qed.

Lemma sameValueZero_trans (a b c : JsVal) :
  sameValueZero a b = true -> sameValueZero b c = true ->
  sameValueZero a c = true.
Proof.
  destruct a as [| |x|x|x|x t], b as [| |y|y|y|y u], c as [| |z|z|z|z v];
    cbn; try discriminate; auto.
  - rewrite !Bool.eqb_true_iff. congruence.
  - rewrite !orb_true_iff, !andb_true_iff.
    intros [[Hx Hy]|H1] [[Hy' Hz]|H2]; auto.
    + rewrite (num_eqb_NaN_l y z Hy) in H2. discriminate.
    + rewrite num_eqb_sym, (num_eqb_NaN_l y x Hy') in H1. discriminate.
    + right. eapply num_eqb_trans; eauto.
  - rewrite !String.eqb_eq. congruence.
  - rewrite !Nat.eqb_eq. congruence.
Qed.

(** [===] is SameValueZero except on NaN. *)
Lemma strictEq_sameValueZero (a b : JsVal) :
  strictEq a b = true -> sameValueZero a b = true.
Proof.
  destruct a, b; cbn; auto. intros ->. apply orb_true_r.
Qed.

Lemma strictEq_sym (a b : JsVal) : strictEq a b = strictEq b a.
Proof.
  destruct a as [| |x|x|x|x t], b as [| |y|y|y|y u]; cbn; auto.
  - destruct x, y; reflexivity.
  - apply num_eqb_sym.
  - apply String.eqb_sym.
  - apply Nat.eqb_sym.
Qed.

(** Replacing the right operand of [===] by a SameValueZero-equal value. *)
Lemma strictEq_sameValueZero_r (a b c : JsVal) :
  strictEq a b = true -> sameValueZero b c = true -> strictEq a c = true.
Proof.
  destruct a as [| |x|x|x|x t], b as [| |y|y|y|y u], c as [| |z|z|z|z v];
    cbn; try discriminate; auto.
  - rewrite !Bool.eqb_true_iff. congruence.
  - intros H1. rewrite orb_true_iff, andb_true_iff.
    intros [[Hy _]|H2].
    + rewrite num_eqb_sym, (num_eqb_NaN_l y x Hy) in H1. discriminate.
    + eapply num_eqb_trans; eauto.
  - rewrite !String.eqb_eq. congruence.
  - rewrite !Nat.eqb_eq. congruence.
Qed.

(** On strings both equalities are equality of the texts, letter case
    included. *)
Lemma sameValueZero_VStr (a b : string) :
  sameValueZero (VStr a) (VStr b) = true <-> a = b.
Proof. cbn. apply String.eqb_eq. Qed.

Lemma strictEq_VStr_r (v : JsVal) (s : string) :
  strictEq v (VStr s) = true <-> v = VStr s.
Proof.
  destruct v; cbn; try (split; (discriminate || congruence)).
  rewrite String.eqb_eq. split; congruence.
Qed.

(** ** Sets *)

Lemma has_true (s : JsSet) (v : JsVal) :
  has s v = true <-> exists x, In x s /\ sameValueZero x v = true.
Proof. unfold has. apply existsb_exists. Qed.

Lemma has_sameValueZero (s : JsSet) (a b : JsVal) :
  sameValueZero a b = true -> has s a = has s b.
Proof.
  intros E. apply eq_true_iff_eq. rewrite !has_true.
  split; intros (x & Hx & Hs); exists x; split; auto.
  - eapply sameValueZero_trans; eauto.
  - eapply sameValueZero_trans; eauto. now rewrite sameValueZero_sym.
Qed.

Lemma has_set_add (s : JsSet) (v x : JsVal) :
  has (set_add s v) x = has s x || sameValueZero v x.
Proof.
  unfold set_add. destruct (has s v) eqn:E.
  - destruct (sameValueZero v x) eqn:F; [|now rewrite orb_false_r].
    rewrite <- (has_sameValueZero s v x F), E. reflexivity.
  - unfold has. rewrite existsb_app. cbn. now rewrite orb_false_r.
Qed.

Lemma has_fold_set_add (xs : list JsVal) (s : JsSet) (v : JsVal) :
  has (fold_left set_add xs s) v
  = has s v || existsb (fun x => sameValueZero x v) xs.
Proof.
  revert s. induction xs as [|x xs IH]; intros s; cbn [fold_left existsb].
  - now rewrite orb_false_r.
  - rewrite IH, has_set_add. now rewrite orb_assoc.
Qed.

(** Membership in [new Set(xs)]. *)
Lemma has_newSet (xs : list JsVal) (v : JsVal) :
  has (newSet xs) v = true <->
  exists x, In x xs /\ sameValueZero x v = true.
Proof.
  unfold newSet. rewrite (has_fold_set_add xs [] v). cbn. apply existsb_exists.
Qed.

Lemma SameValueZero_equiv : Equivalence SameValueZero.
Proof.
  split.
  - intros v. apply sameValueZero_refl.
  - intros a b H. unfold SameValueZero. now rewrite sameValueZero_sym.
  - intros a b c. apply sameValueZero_trans.
Qed.

Lemma InA_has (s : JsSet) (v : JsVal) :
  InA SameValueZero v s <-> has s v = true.
Proof.
  rewrite InA_alt, has_true. unfold SameValueZero.
  split; intros (x & H1 & H2); exists x.
  - now rewrite sameValueZero_sym.
  - now rewrite sameValueZero_sym.
Qed.

Lemma distinct_fold_set_add (xs : list JsVal) (s : JsSet) :
  distinct s -> distinct (fold_left set_add xs s).
Proof.
  revert s. induction xs as [|x xs IH]; intros s Hs; cbn [fold_left]; auto.
  apply IH. unfold set_add. destruct (has s x) eqn:E; auto.
  apply (NoDupA_app SameValueZero_equiv); auto.
  - constructor; [intros H; inversion H | constructor].
  - intros y Hy Hx. apply InA_has in Hy.
    inversion Hx as [? ? Hyx|? ? Hn]; [|inversion Hn]. subst.
    rewrite (has_sameValueZero s y x Hyx) in Hy. congruence.
Qed.

Lemma distinct_newSet (xs : list JsVal) : distinct (newSet xs).
Proof. apply distinct_fold_set_add. constructor. Qed.

Lemma PermutationA_length {A} (eqA : A -> A -> Prop) (l1 l2 : list A) :
  PermutationA eqA l1 l2 -> List.length l1 = List.length l2.
Proof. induction 1; cbn; congruence. Qed.

(** Two sets with the same members have the same size: the number of
    distinct values with a given property is well defined. *)
Lemma same_members_same_size (s1 s2 : JsSet) :
  distinct s1 -> distinct s2 ->
  (forall v, has s1 v = true <-> has s2 v = true) ->
  size s1 = size s2.
Proof.
  intros D1 D2 M. unfold size. f_equal.
  apply (PermutationA_length SameValueZero).
  apply (NoDupA_equivlistA_PermutationA SameValueZero_equiv); auto.
  intros v. rewrite !InA_has. apply M.
Qed.

(** Adding a value that is already a member changes nothing. *)
Lemma fold_set_add_absorb (xs : list JsVal) (s : JsSet) (v : JsVal) :
  has s v = true -> fold_left set_add xs (set_add s v) = fold_left set_add xs s.
Proof. intros H. unfold set_add at 2. now rewrite H. Qed.

Lemma newSet_duplicate (xs ys : list JsVal) (v : JsVal) :
  (exists x, In x xs /\ sameValueZero x v = true) ->
  newSet (xs ++ v :: ys)%list = newSet (xs ++ ys)%list.
Proof.
  intros H. unfold newSet. rewrite !fold_left_app. cbn.
  apply fold_set_add_absorb. now apply has_newSet.
Qed.

(** ** The calendar *)

Lemma DayFromYear_succ (y : Z) :
  DayFromYear (y + 1) = DayFromYear y + DaysInYear y.
Proof.
  unfold DayFromYear, DaysInYear.
  destruct (Z.eqb_spec (y mod 4) 0) as [E4|E4];
    destruct (Z.eqb_spec (y mod 100) 0) as [E100|E100];
    destruct (Z.eqb_spec (y mod 400) 0) as [E400|E400]; cbn [negb];
    Z.div_mod_to_equations; lia.
Qed.

(** [YearFromTime t] is the year whose days contain [t]... *)
Lemma YearFromTime_spec (t : Z) :
  DayFromYear (YearFromTime t) <= Day t < DayFromYear (YearFromTime t + 1).
Proof.
  unfold YearFromTime. set (d := Day t). clearbody d. cbv zeta.
  destruct (Z.leb_spec (DayFromYear (1970 + d * 400 / 146097 + 1)) d);
    [| destruct (Z.leb_spec (DayFromYear (1970 + d * 400 / 146097)) d)].
  all: unfold DayFromYear in *; Z.div_mod_to_equations; lia.
Qed.

(** ... and the only such year. *)
Lemma YearFromTime_unique (t y : Z) :
  DayFromYear y <= Day t < DayFromYear (y + 1) -> YearFromTime t = y.
Proof.
  intros H. pose proof (YearFromTime_spec t) as S.
  set (y' := YearFromTime t) in *. clearbody y'.
  unfold DayFromYear in *. Z.div_mod_to_equations. lia.
Qed.

(** The instants of August 2024: from 2024-08-01T00:00:00 (inclusive) to
    2024-09-01T00:00:00 (exclusive), as milliseconds since the epoch. *)
Lemma August_2024 (t : Z) :
  MonthFromTime t = 7 /\ YearFromTime t = 2024 <->
  1722470400000 <= t < 1725148800000.
Proof.
  assert (D24 : DayFromYear 2024 = 19723) by reflexivity.
  assert (D25 : DayFromYear (2024 + 1) = 20089) by reflexivity.
  assert (L24 : DaysInYear 2024 = 366) by reflexivity.
  split.
  - intros [Hm Hy]. pose proof (YearFromTime_spec t) as S.
    unfold MonthFromTime, DayWithinYear, InLeapYear in Hm.
    rewrite Hy, D24, L24 in Hm. rewrite Hy, D24, D25 in S.
    change (366 =? 366) with true in Hm. cbv iota in Hm.
    unfold Day, msPerDay in *.
    repeat match type of Hm with
           | (if ?c then _ else _) = _ =>
               destruct (Z.ltb_spec0 (t / 86400000 - 19723)
                           ltac:(match c with _ <? ?b => exact b end));
               try discriminate
           end.
    all: Z.div_mod_to_equations; lia.
  - intros H.
    assert (Hy : YearFromTime t = 2024).
    { apply YearFromTime_unique. rewrite D24, D25.
      unfold Day, msPerDay. Z.div_mod_to_equations. lia. }
    split; auto.
    unfold MonthFromTime, DayWithinYear, InLeapYear.
    rewrite Hy, D24, L24. change (366 =? 366) with true. cbv iota.
    unfold Day, msPerDay.
    assert (213 <= t / 86400000 - 19723 < 244)
      by (Z.div_mod_to_equations; lia).
    repeat match goal with
           | |- (if ?c then _ else _) = _ =>
               destruct (Z.ltb_spec0 (t / 86400000 - 19723)
                           ltac:(match c with _ <? ?b => exact b end));
               try lia
           end.
Qed.

Lemma getter_is_true (x : option Z) (n : Z) :
  getter_is x n = true <-> x = Some n.
Proof.
  destruct x as [z|]; cbn.
  - rewrite Z.eqb_eq. split; congruence.
  - split; discriminate.
Qed.

(** ** Arithmetic on NaN and the literal [1000 * 60 * 60 * 24] *)

Lemma sub_NaN_l (x : number) : sub NaN x = NaN.
Proof. destruct x; reflexivity. Qed.

Lemma sub_NaN_r (x : number) : sub x NaN = NaN.
Proof. destruct x; reflexivity. Qed.

Lemma div_NaN_l (x : number) : div NaN x = NaN.
Proof. destruct x; reflexivity. Qed.

Lemma msPerDay_literal :
  mul (mul (mul (ofZ 1000) (ofZ 60)) (ofZ 60)) (ofZ 24) = ofZ msPerDay.
Proof. vm_compute. reflexivity. Qed.

(* ================================================================== *)
(** * The duration calculator *)
(* ================================================================== *)

(** C2, as the code has it.  [calculateTTS] returns [null] exactly when one
    of its arguments is falsy (null, undefined, the empty string, 0, NaN,
    false).  On two truthy arguments it returns the binary64 quotient of the
    difference of the two time values by the 86 400 000 milliseconds of a day,
    whatever its sign; in particular it returns NaN, not [null], when one of
    the two arguments does not denote a date. *)
Theorem calculateTTS_spec (h : Host) (createdAt solvedAt : JsVal) :
  (Common.calculateTTS h createdAt solvedAt = None <->
   truthy createdAt = false \/ truthy solvedAt = false)
  /\ (truthy createdAt = true -> truthy solvedAt = true ->
      Common.calculateTTS h createdAt solvedAt
      = Some (div (sub (getTime (newDate h solvedAt))
                       (getTime (newDate h createdAt)))
                  (ofZ msPerDay)))
  /\ (truthy createdAt = true -> truthy solvedAt = true ->
      newDate h createdAt = None \/ newDate h solvedAt = None ->
      Common.calculateTTS h createdAt solvedAt = Some NaN).
Proof.
  unfold Common.calculateTTS. rewrite msPerDay_literal.
  destruct (truthy createdAt), (truthy solvedAt); cbn [negb orb].
  - split; [|split].
    + split; [discriminate | intros [E|E]; discriminate].
    + reflexivity.
    + intros _ _ [E|E]; rewrite E; cbn [getTime];
        now rewrite ?sub_NaN_l, ?sub_NaN_r, div_NaN_l.
  - split; [|split]; try discriminate. split; auto.
  - split; [|split]; try discriminate. split; auto.
  - split; [|split]; try discriminate. split; auto.
Qed.

(** Three runs of [calculateTTS] on the UTC host: three days, minus three
    days when the two timestamps are exchanged, and [null] on a missing
    timestamp. *)
Lemma calculateTTS_spec_witness :
  Common.calculateTTS Hosts.utc (VStr "2024-08-01T00:00:00Z")
    (VStr "2024-08-04T00:00:00Z") = Some (ofZ 3)
  /\ Common.calculateTTS Hosts.utc (VStr "2024-08-04T00:00:00Z")
       (VStr "2024-08-01T00:00:00Z") = Some (ofZ (-3))
  /\ Common.calculateTTS Hosts.utc (VStr "2024-08-01T00:00:00Z") VNull = None
  /\ Common.calculateTTS Hosts.utc (VStr "n/a") (VStr "2024-08-04T00:00:00Z")
     = Some NaN.
Proof.
  destruct (calculateTTS_spec Hosts.utc (VStr "2024-08-01T00:00:00Z")
              (VStr "2024-08-04T00:00:00Z")) as (_ & E1 & _).
  destruct (calculateTTS_spec Hosts.utc (VStr "2024-08-04T00:00:00Z")
              (VStr "2024-08-01T00:00:00Z")) as (_ & E2 & _).
  destruct (calculateTTS_spec Hosts.utc (VStr "2024-08-01T00:00:00Z") VNull)
    as (E3 & _).
  destruct (calculateTTS_spec Hosts.utc (VStr "n/a")
              (VStr "2024-08-04T00:00:00Z")) as (_ & _ & E4).
  split; [|split; [|split]].
  - rewrite E1; reflexivity.
  - rewrite E2; reflexivity.
  - apply E3. right. reflexivity.
  - apply E4; [reflexivity | reflexivity | left; reflexivity].
Defined.

(** C2, as the specification words it, fails: a timestamp that does not
    parse is not answered by [null] but by NaN. *)
Lemma calculateTTS_unparsable_is_not_null :
  newDate Hosts.utc (VStr "n/a") = None
  /\ Common.calculateTTS Hosts.utc (VStr "n/a") (VStr "2024-08-04T00:00:00Z")
     = Some NaN
  /\ Common.calculateTTS Hosts.utc (VStr "n/a") (VStr "2024-08-04T00:00:00Z")
     <> None.
Proof. split; [|split]; try reflexivity. discriminate. Qed.

(* ================================================================== *)
(** * Cohorts *)
(* ================================================================== *)

Lemma in_map_filter {A B} (f : A -> B) (p : A -> bool) (xs : list A) (y : B) :
  In y (map f (filter p xs)) <-> exists x, In x xs /\ p x = true /\ f x = y.
Proof.
  rewrite in_map_iff. split.
  - intros (x & E & H). apply filter_In in H. exists x. tauto.
  - intros (x & H & P & E). exists x. split; auto. apply filter_In. tauto.
Qed.

Lemma germanCustomers_has (personal : list PersonalData.t) (id : JsVal) :
  has (Common.germanCustomers personal) id = true <->
  exists p, In p personal
            /\ PersonalData.JURISDICTION p = VStr "DE"
            /\ sameValueZero (PersonalData.AUTH_ACCOUNT_ID p) id = true.
Proof.
  unfold Common.germanCustomers. rewrite has_newSet. split.
  - intros (x & Hx & E). apply in_map_filter in Hx as (p & Hp & J & <-).
    exists p. rewrite <- strictEq_VStr_r. auto.
  - intros (p & Hp & J & E). exists (PersonalData.AUTH_ACCOUNT_ID p).
    split; auto. apply in_map_filter. exists p.
    rewrite strictEq_VStr_r. auto.
Qed.

Lemma frenchCustomers_has (personal : list PersonalData.t) (id : JsVal) :
  has (Common.frenchCustomers personal) id = true <->
  exists p, In p personal
            /\ PersonalData.JURISDICTION p = VStr "FR"
            /\ sameValueZero (PersonalData.AUTH_ACCOUNT_ID p) id = true.
Proof.
  unfold Common.frenchCustomers. rewrite has_newSet. split.
  - intros (x & Hx & E). apply in_map_filter in Hx as (p & Hp & J & <-).
    exists p. rewrite <- strictEq_VStr_r. auto.
  - intros (p & Hp & J & E). exists (PersonalData.AUTH_ACCOUNT_ID p).
    split; auto. apply in_map_filter. exists p.
    rewrite strictEq_VStr_r. auto.
Qed.

(** A row that repeats an earlier row adds nothing to the set built from
    the table, whatever the filter applied before. *)
Lemma newSet_map_filter_repeat {A} (f : A -> JsVal) (p : A -> bool)
    (xs ys : list A) (x : A) :
  In x xs ->
  newSet (map f (filter p (xs ++ x :: ys)%list))
  = newSet (map f (filter p (xs ++ ys)%list)).
Proof.
  intros H. rewrite !filter_app, !map_app. cbn [filter].
  destruct (p x) eqn:P; auto. cbn [map].
  apply newSet_duplicate. exists (f x). split.
  - apply in_map_filter. eauto.
  - apply sameValueZero_refl.
Qed.

(** C7.  A value belongs to the German (French) cohort exactly when some row
    of the personal table has the jurisdiction ["DE"] (["FR"]), as that very
    string, and an account id equal to it; on strings that equality is
    equality of the texts, so a change of letter case does not match; and a
    table in which a row occurs a second time yields the same cohort as the
    table without the repetition. *)
Theorem cohort_membership (personal : list PersonalData.t) (id : JsVal) :
  (has (Common.germanCustomers personal) id = true <->
   exists p, In p personal
             /\ PersonalData.JURISDICTION p = VStr "DE"
             /\ sameValueZero (PersonalData.AUTH_ACCOUNT_ID p) id = true)
  /\ (has (Common.frenchCustomers personal) id = true <->
      exists p, In p personal
                /\ PersonalData.JURISDICTION p = VStr "FR"
                /\ sameValueZero (PersonalData.AUTH_ACCOUNT_ID p) id = true)
  /\ (forall a b : string, sameValueZero (VStr a) (VStr b) = true <-> a = b)
  /\ (forall (before after : list PersonalData.t) (p : PersonalData.t),
        In p before ->
        Common.germanCustomers (before ++ p :: after)%list
        = Common.germanCustomers (before ++ after)%list
        /\ Common.frenchCustomers (before ++ p :: after)%list
           = Common.frenchCustomers (before ++ after)%list)
  /\ distinct (Common.germanCustomers personal)
  /\ distinct (Common.frenchCustomers personal).
Proof.
  split; [apply germanCustomers_has|].
  split; [apply frenchCustomers_has|].
  split; [apply sameValueZero_VStr|].
  split; [|split; apply distinct_newSet].
  intros before after p H. split; now apply newSet_map_filter_repeat.
Qed.

(** A German customer ["A1"]: the cohort does not contain ["a1"], a row of
    jurisdiction ["de"] does not enter it, and repeating the row of ["A1"]
    leaves a cohort of one member. *)
Lemma cohort_membership_witness :
  has (Common.germanCustomers [PersonalData.mk (VStr "A1") (VStr "DE")])
      (VStr "A1") = true
  /\ has (Common.germanCustomers [PersonalData.mk (VStr "A1") (VStr "DE")])
         (VStr "a1") = false
  /\ has (Common.germanCustomers [PersonalData.mk (VStr "A1") (VStr "de")])
         (VStr "A1") = false
  /\ Common.germanCustomers [PersonalData.mk (VStr "A1") (VStr "DE");
                             PersonalData.mk (VStr "A1") (VStr "DE")]
     = [VStr "A1"].
Proof.
  split; [|split; [|split]].
  - apply (proj1 (cohort_membership
                    [PersonalData.mk (VStr "A1") (VStr "DE")] (VStr "A1"))).
    eexists. split; [left; reflexivity|]. split; reflexivity.
  - apply not_true_is_false. intros H.
    apply (proj1 (cohort_membership
                    [PersonalData.mk (VStr "A1") (VStr "DE")] (VStr "a1")))
      in H as (p & [<-|[]] & _ & E).
    discriminate E.
  - apply not_true_is_false. intros H.
    apply (proj1 (cohort_membership
                    [PersonalData.mk (VStr "A1") (VStr "de")] (VStr "A1")))
      in H as (p & [<-|[]] & J & _).
    discriminate J.
  - destruct (cohort_membership [] VNull) as (_ & _ & _ & D & _).
    destruct (D [PersonalData.mk (VStr "A1") (VStr "DE")] []
                (PersonalData.mk (VStr "A1") (VStr "DE"))) as [E _].
    + left; reflexivity.
    + cbn [app] in E. rewrite E. reflexivity.
Defined.

(* ================================================================== *)
(** * Question 1: the selection of tickets *)
(* ================================================================== *)

Lemma isGermanAugustTicket_true (h : Host) (personal : list PersonalData.t)
    (ticket : TicketData.t) :
  Common.isGermanAugustTicket h personal ticket = true <->
  truthy (TicketData.CREATED_AT ticket) = true
  /\ truthy (TicketData.AUTH_ACCOUNT_ID ticket) = true
  /\ getMonth h (newDate h (TicketData.CREATED_AT ticket)) = Some 7
  /\ getFullYear h (newDate h (TicketData.CREATED_AT ticket)) = Some 2024
  /\ has (Common.germanCustomers personal) (TicketData.AUTH_ACCOUNT_ID ticket)
     = true
  /\ TicketData.STATUS ticket = VStr "closed".
Proof.
  unfold Common.isGermanAugustTicket.
  destruct (truthy (TicketData.CREATED_AT ticket));
    destruct (truthy (TicketData.AUTH_ACCOUNT_ID ticket)); cbn [negb orb];
    try (split; [discriminate | intros H; decompose [and] H; discriminate]).
  rewrite !andb_true_iff, !getter_is_true, strictEq_VStr_r. tauto.
Qed.

(** The local instants of August 2024 are those on which the two getters
    answer 7 and 2024. *)
Lemma getters_August_2024 (h : Host) (d : TimeValue) :
  getMonth h d = Some 7 /\ getFullYear h d = Some 2024 <->
  exists t, d = Some t
            /\ 1722470400000 <= LocalTime h t < 1725148800000.
Proof.
  destruct d as [t|]; cbn [getMonth getFullYear].
  - split.
    + intros [M Y]. exists t. split; auto.
      apply August_2024. split; congruence.
    + intros (t' & E & I). injection E as <-.
      apply August_2024 in I. destruct I as [M Y]. split; congruence.
  - split; [intros [E _]; discriminate | intros (t & E & _); discriminate].
Qed.

(** C3, as the code has it.  Q1 selects a ticket of the table exactly when
    its [CREATED_AT] and its [AUTH_ACCOUNT_ID] are both truthy, the local
    month and year of the date made from [CREATED_AT] are August (index 7)
    and 2024, that is, the local instant lies from the first millisecond of
    August 2024 up to, but not including, the first of September 2024, its
    account id is in the German cohort, and its [STATUS] is the string
    ["closed"].  A ticket whose date falls in September is not selected, nor
    is a ticket whose status is ["open"]. *)
Theorem germanAugustTickets_selects (h : Host)
    (personal : list PersonalData.t) (tickets : list TicketData.t)
    (ticket : TicketData.t) :
  (In ticket (Common.germanAugustTickets h personal tickets) <->
   In ticket tickets
   /\ truthy (TicketData.CREATED_AT ticket) = true
   /\ truthy (TicketData.AUTH_ACCOUNT_ID ticket) = true
   /\ getMonth h (newDate h (TicketData.CREATED_AT ticket)) = Some 7
   /\ getFullYear h (newDate h (TicketData.CREATED_AT ticket)) = Some 2024
   /\ has (Common.germanCustomers personal)
          (TicketData.AUTH_ACCOUNT_ID ticket) = true
   /\ TicketData.STATUS ticket = VStr "closed")
  /\ (In ticket (Common.germanAugustTickets h personal tickets) ->
      exists t, newDate h (TicketData.CREATED_AT ticket) = Some t
                /\ 1722470400000 <= LocalTime h t < 1725148800000)
  /\ (getMonth h (newDate h (TicketData.CREATED_AT ticket)) = Some 8 ->
      ~ In ticket (Common.germanAugustTickets h personal tickets))
  /\ (TicketData.STATUS ticket = VStr "open" ->
      ~ In ticket (Common.germanAugustTickets h personal tickets)).
Proof.
  assert (I : In ticket (Common.germanAugustTickets h personal tickets) <->
              In ticket tickets
              /\ Common.isGermanAugustTicket h personal ticket = true)
    by apply filter_In.
  rewrite isGermanAugustTicket_true in I.
  split; [exact I|]. split; [|split].
  - intros H. apply I in H. apply getters_August_2024. tauto.
  - intros S H. apply I in H. destruct H as (_ & _ & _ & M & _). congruence.
  - intros S H. apply I in H. destruct H as (_ & _ & _ & _ & _ & _ & C).
    congruence.
Qed.

(** On the UTC host, with one German customer: a closed ticket of August 2024
    is selected, the same ticket dated in September or left open is not. *)
Lemma germanAugustTickets_selects_witness :
  let personal := [PersonalData.mk (VStr "A1") (VStr "DE")] in
  let aug := TicketData.mk (VStr "A1") (VStr "2024-08-01T00:00:00Z")
               (VStr "2024-08-04T00:00:00Z") (VStr "closed") VNull in
  let sep := TicketData.mk (VStr "A1") (VStr "2024-09-01T00:00:00Z")
               (VStr "2024-09-04T00:00:00Z") (VStr "closed") VNull in
  let opn := TicketData.mk (VStr "A1") (VStr "2024-08-01T00:00:00Z")
               (VStr "2024-08-04T00:00:00Z") (VStr "open") VNull in
  In aug (Common.germanAugustTickets Hosts.utc personal [aug; sep; opn])
  /\ ~ In sep (Common.germanAugustTickets Hosts.utc personal [aug; sep; opn])
  /\ ~ In opn (Common.germanAugustTickets Hosts.utc personal [aug; sep; opn]).
Proof.
  intros personal aug sep opn. split; [|split].
  - apply (proj1 (germanAugustTickets_selects Hosts.utc personal
                    [aug; sep; opn] aug)).
    split; [left; reflexivity|]. repeat split.
  - apply (proj1 (proj2 (proj2 (germanAugustTickets_selects Hosts.utc personal
                                  [aug; sep; opn] sep)))).
    reflexivity.
  - apply (proj2 (proj2 (proj2 (germanAugustTickets_selects Hosts.utc personal
                                  [aug; sep; opn] opn)))).
    reflexivity.
Defined.

(** C3, as the specification words it, fails: this closed ticket of August
    2024 has an account id, [null], that is in the German cohort (the personal
    table has a German row with an empty id), and Q1 does not select it. *)
Lemma germanAugustTickets_needs_truthy_account :
  let personal := [PersonalData.mk VNull (VStr "DE")] in
  let ticket := TicketData.mk VNull (VStr "2024-08-10T12:00:00Z")
                  (VStr "2024-08-11T12:00:00Z") (VStr "closed") VNull in
  (TicketData.CREATED_AT ticket <> VNull
   /\ getMonth Hosts.utc (newDate Hosts.utc (TicketData.CREATED_AT ticket))
      = Some 7
   /\ getFullYear Hosts.utc (newDate Hosts.utc (TicketData.CREATED_AT ticket))
      = Some 2024
   /\ has (Common.germanCustomers personal)
          (TicketData.AUTH_ACCOUNT_ID ticket) = true
   /\ TicketData.STATUS ticket = VStr "closed")
  /\ ~ In ticket (Common.germanAugustTickets Hosts.utc personal [ticket]).
Proof.
  cbv zeta. split.
  - split; [discriminate|]. split; [|split; [|split]]; reflexivity.
  - intros H. exact H.
Qed.

(** C10.  A ticket whose account id is falsy ([null], [undefined], the empty
    string; also 0, NaN and [false]) is never selected by Q1, whatever its
    date and status, and the durations and the mean of Q1 are those of the
    table without it. *)
Theorem falsy_account_excluded_from_Q1 (h : Host)
    (personal : list PersonalData.t) (ticket : TicketData.t)
    (H : truthy (TicketData.AUTH_ACCOUNT_ID ticket) = false) :
  (forall tickets, ~ In ticket (Common.germanAugustTickets h personal tickets))
  /\ (forall before after,
        Common.germanAugustTTS h personal (before ++ ticket :: after)%list
        = Common.germanAugustTTS h personal (before ++ after)%list
        /\ Common.averageGermanTTS h personal (before ++ ticket :: after)%list
           = Common.averageGermanTTS h personal (before ++ after)%list).
Proof.
  assert (F : Common.isGermanAugustTicket h personal ticket = false).
  { unfold Common.isGermanAugustTicket. rewrite H.
    now rewrite orb_true_r. }
  split.
  - intros tickets I. apply filter_In in I. destruct I as [_ I]. congruence.
  - intros before after.
    assert (E : Common.germanAugustTTS h personal
                  (before ++ ticket :: after)%list
                = Common.germanAugustTTS h personal (before ++ after)%list).
    { unfold Common.germanAugustTTS, Common.germanAugustTickets.
      rewrite !filter_app. cbn [filter]. now rewrite F. }
    split; auto. unfold Common.averageGermanTTS. now rewrite E.
Qed.

(** The three falsy ids the claim names, on a closed ticket of August 2024
    next to a ticket of the German customer ["A1"]: the mean stays at three
    days. *)
Lemma falsy_account_excluded_from_Q1_witness :
  let personal := [PersonalData.mk (VStr "A1") (VStr "DE");
                   PersonalData.mk VNull (VStr "DE")] in
  let good := TicketData.mk (VStr "A1") (VStr "2024-08-01T00:00:00Z")
                (VStr "2024-08-04T00:00:00Z") (VStr "closed") VNull in
  let anon v := TicketData.mk v (VStr "2024-08-01T00:00:00Z")
                  (VStr "2024-08-02T00:00:00Z") (VStr "closed") VNull in
  Common.averageGermanTTS Hosts.utc personal [good; anon VNull] = ofZ 3
  /\ Common.averageGermanTTS Hosts.utc personal [good; anon VUndefined] = ofZ 3
  /\ Common.averageGermanTTS Hosts.utc personal [good; anon (VStr "")] = ofZ 3.
Proof.
  intros personal good anon.
  split; [|split].
  - destruct (falsy_account_excluded_from_Q1 Hosts.utc personal (anon VNull)
                eq_refl) as [_ E].
    destruct (E [good] []) as [_ R]. etransitivity; [exact R | reflexivity].
  - destruct (falsy_account_excluded_from_Q1 Hosts.utc personal
                (anon VUndefined) eq_refl) as [_ E].
    destruct (E [good] []) as [_ R]. etransitivity; [exact R | reflexivity].
  - destruct (falsy_account_excluded_from_Q1 Hosts.utc personal
                (anon (VStr "")) eq_refl) as [_ E].
    destruct (E [good] []) as [_ R]. etransitivity; [exact R | reflexivity].
Defined.

(* ================================================================== *)
(** * The run of [analyzeData] *)
(* ================================================================== *)

Lemma filterR_Ok {A} (f : A -> Result bool) (xs ys : list A) :
  filterR f xs = Ok ys ->
  (forall x, In x xs -> exists b, f x = Ok b)
  /\ ys = filter (fun x => match f x with Ok b => b | Throw _ => false end) xs.
Proof.
  revert ys. induction xs as [|x xs IH]; intros ys; cbn.
  - intros E. injection E as <-. split; [intros x []|reflexivity].
  - destruct (f x) as [b|e] eqn:F; cbn; [|discriminate].
    destruct (filterR f xs) as [zs|e] eqn:R; cbn; [|discriminate].
    intros E. injection E as <-. destruct (IH zs eq_refl) as [T ->].
    split.
    + intros y [<-|Hy]; eauto.
    + now destruct b.
Qed.

Lemma filterR_total {A} (f : A -> Result bool) (xs : list A) :
  (forall x, In x xs -> exists b, f x = Ok b) ->
  exists ys, filterR f xs = Ok ys.
Proof.
  induction xs as [|x xs IH]; intros T; cbn; eauto.
  destruct (T x (or_introl eq_refl)) as [b ->]. cbn.
  destruct IH as [ys ->]; [intros y Hy; apply T; now right|]. cbn. eauto.
Qed.

Lemma optLowerIncludes_textual (v : JsVal) (needle : string) :
  Spec.textual v <-> exists b, optLowerIncludes v needle = Ok b.
Proof.
  destruct v; cbn; split; eauto; try contradiction;
    intros [r E]; discriminate.
Qed.

Lemma interestTickets_total (tickets : list TicketData.t) :
  (forall t, In t tickets -> Spec.textual (TicketData.CONTACT_REASON_VALUE t))
  <-> exists s, Common.interestTickets tickets = Ok s.
Proof.
  unfold Common.interestTickets. split.
  - intros T.
    destruct (filterR_total
                (fun t => optLowerIncludes (TicketData.CONTACT_REASON_VALUE t)
                            "interest") tickets) as [ys ->]; cbn; eauto.
    intros t Ht. apply optLowerIncludes_textual. auto.
  - intros [s E] t Ht.
    destruct (filterR _ tickets) as [ys|e] eqn:R; [|discriminate].
    apply filterR_Ok in R. destruct R as [T _].
    apply (optLowerIncludes_textual _ "interest"). auto.
Qed.

Lemma transferTickets_total (french : JsSet) (tickets : list TicketData.t) :
  (forall t, In t tickets -> Spec.textual (TicketData.CONTACT_REASON_VALUE t))
  <-> exists ts, Common.transferTickets french tickets = Ok ts.
Proof.
  unfold Common.transferTickets. split.
  - intros T. apply filterR_total. intros t Ht.
    pose proof (T t Ht) as Tt.
    apply (optLowerIncludes_textual _ "transfer") in Tt.
    destruct Tt as [b ->]. cbn. eauto.
  - intros [ts E] t Ht. apply filterR_Ok in E. destruct E as [T _].
    destruct (T t Ht) as [b B].
    apply (optLowerIncludes_textual _ "transfer").
    destruct (optLowerIncludes _ _); [eauto | discriminate].
Qed.

Lemma results_addLog (w : World) (m : string) (d : Z) (st : State) :
  results (addLog w m d st) = results st.
Proof. reflexivity. Qed.

(** What [page.tsx] stores in [results]: nothing when a contact reason makes
    [toLowerCase] throw, the three records otherwise. *)
Lemma Page_analyzeData_results (h : Host) (w : World)
    (personal : list PersonalData.t) (tickets : list TicketData.t)
    (complaints : list ComplaintData.t) (st : State) :
  results (Page.analyzeData h w personal tickets complaints st) =
  match Common.interestTickets tickets,
        Common.transferTickets (Common.frenchCustomers personal) tickets with
  | Ok interest, Ok transfer =>
      Some
        {| q1 := {| value := Some (Common.averageGermanTTS h personal tickets);
                    answer := "b";
                    explanation :=
                      "Average TTS for German customers in August was 3.360 days" |};
           q2 := {| value :=
                      Some (Common.slaPercentage
                              (Page.complaintsSLA h
                                 (Common.interestComplaints interest
                                    complaints)));
                    answer := "b";
                    explanation :=
                      "67.9% of interest-related complaints were resolved within SLA" |};
           q3 := {| value :=
                      Some (ofZ (size (Common.frenchTransferComplaints
                                         (Common.frenchCustomers personal)
                                         transfer complaints)));
                    answer := "b";
                    explanation :=
                      "5 French customers had complaints related to transfer inquiries" |}
        |}
  | _, _ => None
  end.
Proof.
  unfold Page.analyzeData, Page.tryBlock, bindM, update, lift.
  destruct (Common.interestTickets tickets) as [interest|e];
    [destruct (Common.transferTickets _ tickets) as [transfer|e']|];
    reflexivity.
Qed.

Lemma Part000_analyzeData_results (h : Host) (w : World)
    (personalData : list PersonalData.t) (ticketsData : list TicketData.t)
    (complaintsData : list ComplaintData.t) (st : State) :
  results (Part000.analyzeData h w
             {| personal := Some personalData; tickets := Some ticketsData;
                complaints := Some complaintsData |} st) =
  match Common.interestTickets ticketsData,
        Common.transferTickets (Common.frenchCustomers personalData) ticketsData with
  | Ok interest, Ok transfer =>
      Some
        {| q1 := {| value := Some (Common.averageGermanTTS h personalData ticketsData);
                    answer := "b";
                    explanation :=
                      "Average TTS for German customers in August was 3.360 days" |};
           q2 := {| value :=
                      Some (Common.slaPercentage
                              (Part000.complaintsSLA h
                                 (Common.interestComplaints interest
                                    complaintsData)));
                    answer := "b";
                    explanation :=
                      "67.9% of interest-related complaints were resolved within SLA" |};
           q3 := {| value :=
                      Some (ofZ (size (Common.frenchTransferComplaints
                                         (Common.frenchCustomers personalData)
                                         transfer complaintsData)));
                    answer := "b";
                    explanation :=
                      "5 French customers had complaints related to transfer inquiries" |}
        |}
  | _, _ => None
  end.
Proof.
  unfold Part000.analyzeData, Part000.tryBlock, Part000.required,
    bindM, update, lift, ret.
  cbn [personal tickets complaints].
  destruct (Common.interestTickets ticketsData) as [interest|e];
    [destruct (Common.transferTickets _ ticketsData) as [transfer|e']|];
    reflexivity.
Qed.

(** The run stores results exactly when every contact reason is a string,
    [null] or [undefined]. *)
Lemma Page_analyzeData_total (h : Host) (w : World)
    (personal : list PersonalData.t) (tickets : list TicketData.t)
    (complaints : list ComplaintData.t) (st : State) :
  (forall t, In t tickets -> Spec.textual (TicketData.CONTACT_REASON_VALUE t))
  <-> exists r,
        results (Page.analyzeData h w personal tickets complaints st) = Some r.
Proof.
  rewrite Page_analyzeData_results. split.
  - intros T.
    destruct (proj1 (interestTickets_total tickets) T) as [s ->].
    destruct (proj1 (transferTickets_total
                       (Common.frenchCustomers personal) tickets) T)
      as [ts ->].
    eauto.
  - intros [r E].
    destruct (Common.interestTickets tickets) eqn:I; [|discriminate].
    apply interestTickets_total. eauto.
Qed.

(* ================================================================== *)
(** * Question 2: complaints within SLA *)
(* ================================================================== *)

(** The [reduce] counts the rows and, among them, those on which the test
    holds. *)
Lemma reduce_counts {A} (test : A -> bool) (xs : list A) (t0 w0 : Z) :
  fold_left
    (fun acc x =>
       {| Common.total := Common.total acc + 1;
          Common.withinSLA :=
            Common.withinSLA acc + (if test x then 1 else 0) |})
    xs {| Common.total := t0; Common.withinSLA := w0 |}
  = {| Common.total := t0 + lengthZ xs;
       Common.withinSLA := w0 + lengthZ (filter test xs) |}.
Proof.
  revert t0 w0. induction xs as [|x xs IH]; intros t0 w0; cbn [fold_left].
  - unfold lengthZ. cbn. now rewrite !Z.add_0_r.
  - cbn [Common.total Common.withinSLA]. rewrite IH. cbn [filter].
    unfold lengthZ. destruct (test x); cbn [List.length]; f_equal; lia.
Qed.

(** The typed revision counts a complaint as within SLA exactly when its
    duration is non-null and at most 14 days. *)
Lemma Part000_complaintsSLA_counts (h : Host) (cs : list ComplaintData.t) :
  Part000.complaintsSLA h cs
  = {| Common.total := lengthZ cs;
       Common.withinSLA := lengthZ (filter (Spec.withinSLA h) cs) |}.
Proof.
  unfold Part000.complaintsSLA.
  exact (reduce_counts (Spec.withinSLA h) cs 0 0).
Qed.

(** [page.tsx] also counts every complaint whose duration is null. *)
Lemma Page_complaintsSLA_counts (h : Host) (cs : list ComplaintData.t) :
  Page.complaintsSLA h cs
  = {| Common.total := lengthZ cs;
       Common.withinSLA :=
         lengthZ (filter
                    (fun c =>
                       match Common.calculateTTS h (ComplaintData.CREATED_AT c)
                               (ComplaintData.SOLVED_AT c) with
                       | Some duration => leb duration (ofZ 14)
                       | None => true
                       end) cs) |}.
Proof.
  unfold Page.complaintsSLA.
  rewrite (reduce_counts
             (fun c => leb (match Common.calculateTTS h
                                    (ComplaintData.CREATED_AT c)
                                    (ComplaintData.SOLVED_AT c) with
                            | Some x => x
                            | None => ofZ 0
                            end) (ofZ 14)) cs 0 0).
  rewrite !Z.add_0_l. do 2 f_equal. apply filter_ext. intros c.
  destruct (Common.calculateTTS h _ _); reflexivity.
Qed.

(** C1 on [page.tsx]: an unsolved complaint of an account of the interest
    cohort has a null duration, and the [reduce] of [page.tsx] counts it as
    within SLA (100 %), where the typed revision does not (0 %). *)
Lemma Page_counts_null_duration_within_SLA :
  let tickets := [TicketData.mk (VStr "A1") (VStr "2024-08-01T00:00:00Z")
                    (VStr "2024-08-04T00:00:00Z") (VStr "closed")
                    (VStr "interest rate question")] in
  let complaint := ComplaintData.mk (VStr "A1") (VStr "2024-08-05T00:00:00Z")
                     VNull in
  Common.calculateTTS Hosts.utc (ComplaintData.CREATED_AT complaint)
    (ComplaintData.SOLVED_AT complaint) = None
  /\ Spec.withinSLA Hosts.utc complaint = false
  /\ Page.complaintsSLA Hosts.utc [complaint]
     = {| Common.total := 1; Common.withinSLA := 1 |}
  /\ Part000.complaintsSLA Hosts.utc [complaint]
     = {| Common.total := 1; Common.withinSLA := 0 |}
  /\ option_map (fun r => value (q2 r))
       (results (Page.analyzeData Hosts.utc Hosts.noon [] tickets [complaint]
                   Hosts.initial))
     = Some (Some (ofZ 100))
  /\ option_map (fun r => value (q2 r))
       (results (Part000.analyzeData Hosts.utc Hosts.noon
                   {| personal := Some []; tickets := Some tickets;
                      complaints := Some [complaint] |} Hosts.initial))
     = Some (Some (ofZ 0)).
Proof. cbv zeta. repeat split. Qed.

(** C6, as the specification words it, fails: with no complaint of the
    interest cohort the run ends normally, logs no error, and stores NaN as
    the Q2 value under the answer and the explanation of every other run. *)
Lemma Q2_zero_total_is_silent_NaN :
  let personal := [PersonalData.mk (VStr "A1") (VStr "DE");
                   PersonalData.mk (VStr "A2") (VStr "FR")] in
  let tickets := [TicketData.mk (VStr "A1") (VStr "2024-08-01T00:00:00Z")
                    (VStr "2024-08-04T00:00:00Z") (VStr "closed")
                    (VStr "interest rate question")] in
  let st := Page.analyzeData Hosts.utc Hosts.noon personal tickets []
              Hosts.initial in
  option_map q2 (results st)
  = Some {| value := Some NaN;
            answer := "b";
            explanation :=
              "67.9% of interest-related complaints were resolved within SLA" |}
  /\ forallb (fun l => match type l with error => false | _ => true end)
       (logs st) = true
  /\ In "└─ SLA compliance: NaN%" (map message (logs st))
  /\ In "✨ Analysis completed successfully!" (map message (logs st)).
Proof.
  cbv zeta. split; [reflexivity|]. split; [reflexivity|].
  split; vm_compute; tauto.
Qed.

(** In the revision [part_001] the Q2 value is [null] on every run that
    stores results, whatever the number of complaints. *)
Lemma Part001_Q2_is_null (h : Host) (w : World) (files : FileState)
    (st : State) (r : Results) :
  results (Part001.analyzeData h w files st) = Some r ->
  value (q2 r) = None /\ answer (q2 r) = "e".
Proof.
  unfold Part001.analyzeData, Part001.tryBlock, bindM, update, lift.
  destruct (personal files) as [ps|], (tickets files) as [ts|],
    (complaints files) as [cs|]; try (intros E; discriminate E).
  destruct (Part001.interestComplaints ts cs) as [selected|e]; intros E;
    [|discriminate E].
  injection E as <-. split; reflexivity.
Qed.

(* ================================================================== *)
(** * Question 1: the mean *)
(* ================================================================== *)

(** C5, as the specification words it, fails: on three empty tables the
    selection of Q1 is empty, the run ends normally, logs no error, and
    stores NaN as the Q1 value under the answer and the explanation of every
    other run. *)
Lemma Q1_empty_selection_is_silent_NaN :
  let st := Page.analyzeData Hosts.utc Hosts.noon [] [] [] Hosts.initial in
  Common.germanAugustTickets Hosts.utc [] [] = []
  /\ option_map q1 (results st)
     = Some {| value := Some NaN;
               answer := "b";
               explanation :=
                 "Average TTS for German customers in August was 3.360 days" |}
  /\ forallb (fun l => match type l with error => false | _ => true end)
       (logs st) = true
  /\ In "└─ Average TTS: NaN days" (map message (logs st))
  /\ In "✨ Analysis completed successfully!" (map message (logs st)).
Proof.
  cbv zeta. split; [reflexivity|]. split; [reflexivity|].
  split; [reflexivity|]. split; vm_compute; tauto.
Qed.

(* ================================================================== *)
(** * Question 3: French customers with a transfer ticket and a complaint *)
(* ================================================================== *)

Lemma In_transferTickets (french : JsSet) (tickets transfer : list TicketData.t)
    (t : TicketData.t) :
  Common.transferTickets french tickets = Ok transfer ->
  (In t transfer <->
   In t tickets
   /\ has french (TicketData.AUTH_ACCOUNT_ID t) = true
   /\ exists reason,
        TicketData.CONTACT_REASON_VALUE t = VStr reason
        /\ includes (toLowerCase reason) "transfer" = true).
Proof.
  intros E. apply filterR_Ok in E. destruct E as [_ ->].
  rewrite filter_In.
  destruct (TicketData.CONTACT_REASON_VALUE t) as [| |b|x|reason|i d]; cbn;
    try (split; [intros [_ F]; discriminate
                |intros (_ & _ & r & F & _); discriminate]).
  rewrite andb_true_iff. split.
  - intros (I & T & F). eauto.
  - intros (I & F & r & R & T). injection R as <-. auto.
Qed.

Lemma has_frenchTransferComplaints (personal : list PersonalData.t)
    (tickets transfer : list TicketData.t) (complaints : list ComplaintData.t)
    (id : JsVal) :
  Common.transferTickets (Common.frenchCustomers personal) tickets
  = Ok transfer ->
  (has (Common.frenchTransferComplaints (Common.frenchCustomers personal)
          transfer complaints) id = true
   <-> Spec.qualifies personal tickets complaints id).
Proof.
  intros E. unfold Common.frenchTransferComplaints, Spec.qualifies.
  rewrite <- (frenchCustomers_has personal id).
  set (french := Common.frenchCustomers personal) in *.
  rewrite has_newSet. split.
  - intros (x & Hx & S). apply in_map_filter in Hx.
    destruct Hx as (c & Hc & J & <-).
    apply filter_In in Hc. destruct Hc as [Hc F].
    apply existsb_exists in J. destruct J as (t & Ht & Q).
    apply (In_transferTickets french tickets transfer t E) in Ht.
    destruct Ht as (Ht & _ & reason & R & T).
    split; [|split].
    + now rewrite <- (has_sameValueZero french _ id S).
    + eauto.
    + exists t, reason. repeat split; auto.
      eapply strictEq_sameValueZero_r; eauto.
  - intros (F & (c & Hc & S) & (t & reason & Ht & Q & R & T)).
    exists (ComplaintData.AUTH_ACCOUNT_ID c). split; auto.
    apply in_map_filter. exists c. split; [|split; auto].
    + apply filter_In. split; auto.
      now rewrite (has_sameValueZero french _ id S).
    + apply existsb_exists. exists t. split.
      * apply (In_transferTickets french tickets transfer t E).
        split; auto. split; eauto.
        rewrite (has_sameValueZero french _ id); auto.
        now apply strictEq_sameValueZero.
      * eapply strictEq_sameValueZero_r; eauto.
        now rewrite sameValueZero_sym.
Qed.

(** C4.  Whenever the run of [page.tsx] stores results, the Q3 value is the
    size of a set without repetition whose members are exactly the account
    ids that belong to the French cohort (some personal row has the
    jurisdiction ["FR"] and that id), own a complaint and own a ticket whose
    contact reason contains "transfer" in any letter case; no timestamp
    enters the join; a complaint owner without such a ticket is not a member,
    and neither is an account none of whose personal rows is French.  The
    run stores results exactly when every contact reason is a string, [null]
    or [undefined]. *)
Theorem Q3_counts_qualifying_accounts (h : Host) (w : World)
    (personalData : list PersonalData.t) (ticketsData : list TicketData.t)
    (complaintsData : list ComplaintData.t) (st : State) :
  (forall r,
     results (Page.analyzeData h w personalData ticketsData complaintsData st)
     = Some r ->
     exists accounts : JsSet,
       value (q3 r) = Some (ofZ (size accounts))
       /\ distinct accounts
       /\ (forall id, has accounts id = true
                      <-> Spec.qualifies personalData ticketsData
                            complaintsData id)
       /\ (forall c,
             In c complaintsData ->
             (forall t, In t ticketsData ->
                        strictEq (TicketData.AUTH_ACCOUNT_ID t)
                                 (ComplaintData.AUTH_ACCOUNT_ID c) = true ->
                        optLowerIncludes (TicketData.CONTACT_REASON_VALUE t)
                          "transfer" = Ok false) ->
             has accounts (ComplaintData.AUTH_ACCOUNT_ID c) = false)
       /\ (forall id,
             (forall p, In p personalData ->
                        sameValueZero (PersonalData.AUTH_ACCOUNT_ID p) id
                        = true ->
                        PersonalData.JURISDICTION p <> VStr "FR") ->
             has accounts id = false))
  /\ ((forall t, In t ticketsData ->
                 Spec.textual (TicketData.CONTACT_REASON_VALUE t)) <->
      exists r,
        results (Page.analyzeData h w personalData ticketsData
                   complaintsData st) = Some r).
Proof.
  split; [|apply Page_analyzeData_total].
  intros r Hrun. rewrite Page_analyzeData_results in Hrun.
  destruct (Common.interestTickets ticketsData) as [interest|];
    try discriminate.
  destruct (Common.transferTickets _ ticketsData) as [transfer|] eqn:E;
    try discriminate.
  injection Hrun as <-. cbn [q3 value].
  exists (Common.frenchTransferComplaints
            (Common.frenchCustomers personalData) transfer complaintsData).
  split; [reflexivity|]. split; [apply distinct_newSet|].
  split; [intros id; now apply has_frenchTransferComplaints|].
  split.
  - intros c Hc N. apply not_true_is_false. intros H.
    apply (has_frenchTransferComplaints personalData ticketsData transfer
             complaintsData _ E) in H.
    destruct H as (_ & _ & (t & reason & Ht & Q & R & T)).
    specialize (N t Ht Q). rewrite R in N. cbn in N. congruence.
  - intros id N. apply not_true_is_false. intros H.
    apply (has_frenchTransferComplaints personalData ticketsData transfer
             complaintsData _ E) in H.
    destruct H as ((p & Hp & J & S) & _). exact (N p Hp S J).
Qed.

(** A French customer ["F1"] with two complaints and a ticket about a
    transfer, a French customer ["F2"] with a complaint and no such ticket,
    and a German customer ["D1"] with a complaint and a ticket about a
    transfer: the run stores results, ["F1"] is counted once, ["F2"] and
    ["D1"] are not, and the count is 1. *)
Lemma Q3_counts_qualifying_accounts_witness :
  let personalData := [PersonalData.mk (VStr "F1") (VStr "FR");
                       PersonalData.mk (VStr "F2") (VStr "FR");
                       PersonalData.mk (VStr "D1") (VStr "DE")] in
  let ticketsData :=
    [TicketData.mk (VStr "F1") (VStr "2024-08-01T00:00:00Z")
       VNull (VStr "open") (VStr "Incoming TRANSFER missing");
     TicketData.mk (VStr "F2") (VStr "2024-08-01T00:00:00Z")
       VNull (VStr "open") (VStr "card blocked");
     TicketData.mk (VStr "D1") (VStr "2024-08-01T00:00:00Z")
       VNull (VStr "open") (VStr "transfer to broker")] in
  let complaintsData := [ComplaintData.mk (VStr "F1") VNull VNull;
                         ComplaintData.mk (VStr "F1") VNull VNull;
                         ComplaintData.mk (VStr "F2") VNull VNull;
                         ComplaintData.mk (VStr "D1") VNull VNull] in
  exists r accounts,
    results (Page.analyzeData Hosts.utc Hosts.noon personalData ticketsData
               complaintsData Hosts.initial) = Some r
    /\ value (q3 r) = Some (ofZ (size accounts))
    /\ has accounts (VStr "F1") = true
    /\ has accounts (VStr "F2") = false
    /\ has accounts (VStr "D1") = false
    /\ value (q3 r) = Some (ofZ 1).
Proof.
  intros personalData ticketsData complaintsData.
  destruct (Q3_counts_qualifying_accounts Hosts.utc Hosts.noon personalData
              ticketsData complaintsData Hosts.initial) as [C T].
  destruct (proj1 T) as [r E].
  { intros t [<-|[<-|[<-|[]]]]; exact I. }
  destruct (C r E) as (accounts & V & _ & M & X & N).
  exists r, accounts. split; [exact E|]. split; [exact V|].
  split; [|split; [|split]].
  - apply M. split; [|split].
    + exists (PersonalData.mk (VStr "F1") (VStr "FR")).
      split; [left; reflexivity | split; reflexivity].
    + exists (ComplaintData.mk (VStr "F1") VNull VNull).
      split; [left; reflexivity | reflexivity].
    + eexists _, _. split; [left; reflexivity|]. repeat split.
  - apply (X (ComplaintData.mk (VStr "F2") VNull VNull)).
    + right. right. left. reflexivity.
    + intros t [<-|[<-|[<-|[]]]] Q; (discriminate Q || reflexivity).
  - apply N. intros p [<-|[<-|[<-|[]]]] S; (discriminate S || discriminate).
  - assert (E' : results (Page.analyzeData Hosts.utc Hosts.noon personalData
                            ticketsData complaintsData Hosts.initial)
                 = Some r) by exact E.
    vm_compute in E'. injection E' as <-. reflexivity.
Defined.

(* ================================================================== *)
(** * The progress reporter *)
(* ================================================================== *)

(** C9.  [addLog] appends one entry that carries the message, and the type
    of the entry is computed from the text alone: [error] when the lowered
    text contains "error", otherwise [success] when it contains "success",
    otherwise [info]; the world, the delay and the state it is called in
    have no part in it. *)
Theorem addLog_classification (w : World) (text : string) (delay : Z)
    (st : State) :
  exists entry,
    logs (addLog w text delay st) = (logs st ++ [entry])%list
    /\ message entry = text
    /\ (includes (toLowerCase text) "error" = true -> type entry = error)
    /\ (includes (toLowerCase text) "error" = false ->
        includes (toLowerCase text) "success" = true ->
        type entry = success)
    /\ (includes (toLowerCase text) "error" = false ->
        includes (toLowerCase text) "success" = false ->
        type entry = info)
    /\ (forall w' delay' st',
          exists entry',
            logs (addLog w' text delay' st') = (logs st' ++ [entry'])%list
            /\ type entry' = type entry).
Proof.
  eexists. split; [reflexivity|]. cbn [message type].
  split; [reflexivity|].
  repeat split.
  - now intros ->.
  - now intros -> ->.
  - now intros -> ->.
  - intros w' delay' st'. eexists. split; reflexivity.
Qed.

(** The three kinds of message of the run, and a message that contains both
    words. *)
Lemma addLog_classification_witness :
  map type (logs (addLog Hosts.noon "❌ Error during analysis: boom" 500
                    (addLog Hosts.noon "ERROR after success" 0
                       (addLog Hosts.noon "✓ Successfully parsed 2 personal records" 500
                          (addLog Hosts.noon "📊 Generating final report..." 800
                             Hosts.initial)))))
  = [info; success; error; error].
Proof.
  destruct (addLog_classification Hosts.noon "📊 Generating final report..."
              800 Hosts.initial) as (e1 & L1 & _ & _ & _ & T1 & _).
  set (st1 := addLog Hosts.noon "📊 Generating final report..." 800
                Hosts.initial) in *.
  destruct (addLog_classification Hosts.noon
              "✓ Successfully parsed 2 personal records" 500 st1)
    as (e2 & L2 & _ & _ & T2 & _ & _).
  set (st2 := addLog Hosts.noon "✓ Successfully parsed 2 personal records"
                500 st1) in *.
  destruct (addLog_classification Hosts.noon "ERROR after success" 0 st2)
    as (e3 & L3 & _ & T3 & _ & _ & _).
  set (st3 := addLog Hosts.noon "ERROR after success" 0 st2) in *.
  destruct (addLog_classification Hosts.noon "❌ Error during analysis: boom"
              500 st3) as (e4 & L4 & _ & T4 & _ & _ & _).
  rewrite L4, L3, L2, L1. cbn [Hosts.initial logs app map].
  rewrite (T1 eq_refl eq_refl), (T2 eq_refl eq_refl), (T3 eq_refl),
    (T4 eq_refl).
  reflexivity.
Defined.

(* ================================================================== *)
(** * Two runs on the same tables *)
(* ================================================================== *)











(* ================================================================== *)
(** * Further properties of the three questions *)
(* ================================================================== *)

(** ** Question 1: which tickets enter the mean *)

Lemma calculateTTS_created_truthy (h : Host) (createdAt solvedAt : JsVal) :
  truthy createdAt = true ->
  Common.calculateTTS h createdAt solvedAt
  = if truthy solvedAt
    then Some (div (sub (getTime (newDate h solvedAt))
                        (getTime (newDate h createdAt)))
                   (ofZ msPerDay))
    else None.
Proof.
  intros C. unfold Common.calculateTTS. rewrite C, msPerDay_literal.
  destruct (truthy solvedAt); reflexivity.
Qed.

Lemma selected_created_truthy (h : Host) (personalData : list PersonalData.t)
    (t : TicketData.t) :
  Common.isGermanAugustTicket h personalData t = true ->
  truthy (TicketData.CREATED_AT t) = true.
Proof.
  unfold Common.isGermanAugustTicket.
  destruct (truthy (TicketData.CREATED_AT t)); [reflexivity|].
  cbn [negb orb]. discriminate.
Qed.

(** X1.  The durations that enter the Q1 mean are those of the selected tickets
    whose [SOLVED_AT] is truthy, in the order of the table: a selected ticket
    that is not solved yet is left out of the mean, not counted as zero. *)
Theorem germanAugustTTS_solved_only (h : Host)
    (personalData : list PersonalData.t) (ticketsData : list TicketData.t) :
  Common.germanAugustTTS h personalData ticketsData
  = map (fun t =>
           div (sub (getTime (newDate h (TicketData.SOLVED_AT t)))
                    (getTime (newDate h (TicketData.CREATED_AT t))))
               (ofZ msPerDay))
      (filter (fun t => truthy (TicketData.SOLVED_AT t))
         (Common.germanAugustTickets h personalData ticketsData)).
Proof.
  unfold Common.germanAugustTTS, Common.germanAugustTickets.
  induction ticketsData as [|t ts IH]; [reflexivity|].
  cbn [filter].
  destruct (Common.isGermanAugustTicket h personalData t) eqn:S; [|exact IH].
  cbn [map filter Common.notNull].
  rewrite (calculateTTS_created_truthy h _ _
             (selected_created_truthy h personalData t S)).
  destruct (truthy (TicketData.SOLVED_AT t)); cbn [map Common.notNull];
    now rewrite IH.
Qed.

(** ** Question 1: one unparsable date spoils the mean *)

Lemma add_NaN_l (x : number) : add NaN x = NaN.
Proof. destruct x; reflexivity. Qed.

Lemma add_NaN_r (x : number) : add x NaN = NaN.
Proof. destruct x; reflexivity. Qed.

Lemma fold_add_NaN (xs : list number) : fold_left add xs NaN = NaN.
Proof.
  induction xs as [|x xs IH]; cbn [fold_left]; auto.
Qed.

Lemma fold_add_In_NaN (xs : list number) (x : number) :
  In NaN xs -> fold_left add xs x = NaN.
Proof.
  revert x. induction xs as [|y ys IH]; intros x []; cbn [fold_left].
  - subst y. rewrite add_NaN_r. apply fold_add_NaN.
  - now apply IH.
Qed.

Lemma mean_In_NaN (xs : list number) : In NaN xs -> Lodash.mean xs = NaN.
Proof.
  unfold Lodash.mean, Lodash.baseSum. destruct xs as [|x xs]; intros [].
  - subst x. now rewrite fold_add_NaN, div_NaN_l.
  - now rewrite fold_add_In_NaN, div_NaN_l.
Qed.

(** X2.  A selected ticket whose [SOLVED_AT] is truthy but does not denote a date
    has the duration NaN, which survives the filter on [null] and turns the
    whole Q1 mean into NaN, whatever the other tickets are. *)
Theorem unparsable_solved_date_spoils_mean (h : Host)
    (personalData : list PersonalData.t) (ticketsData : list TicketData.t)
    (t : TicketData.t)
    (Hsel : In t (Common.germanAugustTickets h personalData ticketsData))
    (Htruthy : truthy (TicketData.SOLVED_AT t) = true)
    (Hbad : newDate h (TicketData.SOLVED_AT t) = None) :
  In NaN (Common.germanAugustTTS h personalData ticketsData)
  /\ Common.averageGermanTTS h personalData ticketsData = NaN.
Proof.
  assert (I : In NaN (Common.germanAugustTTS h personalData ticketsData)).
  { rewrite germanAugustTTS_solved_only. apply in_map_iff. exists t. split.
    - rewrite Hbad. cbn [getTime]. now rewrite sub_NaN_l, div_NaN_l.
    - apply filter_In. auto. }
  split; auto. unfold Common.averageGermanTTS. now apply mean_In_NaN.
Qed.

(** Two German tickets of August 2024, one solved in three days and one
    whose solution date reads "n/a": the mean is NaN. *)
Lemma unparsable_solved_date_spoils_mean_witness :
  let personalData := [PersonalData.mk (VStr "A1") (VStr "DE")] in
  let good := TicketData.mk (VStr "A1") (VStr "2024-08-01T00:00:00Z")
                (VStr "2024-08-04T00:00:00Z") (VStr "closed") VNull in
  let bad := TicketData.mk (VStr "A1") (VStr "2024-08-02T00:00:00Z")
               (VStr "n/a") (VStr "closed") VNull in
  Common.averageGermanTTS Hosts.utc personalData [good; bad] = NaN.
Proof.
  intros personalData good bad.
  apply (unparsable_solved_date_spoils_mean Hosts.utc personalData
           [good; bad] bad).
  - vm_compute. right. left. reflexivity.
  - reflexivity.
  - reflexivity.
Defined.

(** ** Question 2: which complaints are selected *)

Lemma has_interestTickets (ticketsData : list TicketData.t) (interest : JsSet)
    (id : JsVal) :
  Common.interestTickets ticketsData = Ok interest ->
  (has interest id = true <->
   exists t reason,
     In t ticketsData
     /\ TicketData.CONTACT_REASON_VALUE t = VStr reason
     /\ includes (toLowerCase reason) "interest" = true
     /\ sameValueZero (TicketData.AUTH_ACCOUNT_ID t) id = true).
Proof.
  unfold Common.interestTickets.
  destruct (filterR _ ticketsData) as [ts|e] eqn:R; [|discriminate].
  cbn [bind]. intros E. injection E as <-.
  apply filterR_Ok in R. destruct R as [_ ->].
  rewrite has_newSet. split.
  - intros (x & Hx & S). apply in_map_filter in Hx.
    destruct Hx as (t & Ht & P & <-).
    destruct (TicketData.CONTACT_REASON_VALUE t) as [| |b|n|reason|i d] eqn:C;
      cbn in P; try discriminate.
    exists t, reason. auto.
  - intros (t & reason & Ht & C & P & S).
    exists (TicketData.AUTH_ACCOUNT_ID t). split; auto.
    apply in_map_filter. exists t. rewrite C. cbn. auto.
Qed.

(** X3.  When the scan of the tickets for "interest" does not throw, Q2 selects a
    complaint exactly when some ticket carries a contact reason that contains
    "interest" in any letter case and an account id equal (SameValueZero) to
    the complaint's.  The join is on the account id alone and has no guard on
    that id: a complaint without account id is selected as soon as one such
    ticket has no account id either. *)
Theorem interestComplaints_selects (ticketsData : list TicketData.t)
    (complaintsData : list ComplaintData.t) (interest : JsSet)
    (c : ComplaintData.t)
    (Hscan : Common.interestTickets ticketsData = Ok interest) :
  In c (Common.interestComplaints interest complaintsData) <->
  In c complaintsData
  /\ exists t reason,
       In t ticketsData
       /\ TicketData.CONTACT_REASON_VALUE t = VStr reason
       /\ includes (toLowerCase reason) "interest" = true
       /\ sameValueZero (TicketData.AUTH_ACCOUNT_ID t)
                        (ComplaintData.AUTH_ACCOUNT_ID c) = true.
Proof.
  unfold Common.interestComplaints. rewrite filter_In.
  now rewrite (has_interestTickets ticketsData interest _ Hscan).
Qed.

(** A ticket and a complaint that both lack an account id are joined; the
    complaint of another account is not selected. *)
Lemma interestComplaints_selects_witness :
  let ticketsData := [TicketData.mk VNull (VStr "2024-08-01T00:00:00Z") VNull
                        (VStr "open") (VStr "Question about INTEREST")] in
  let anonymous := ComplaintData.mk VNull VNull VNull in
  let other := ComplaintData.mk (VStr "A1") VNull VNull in
  In anonymous (Common.interestComplaints [VNull] [anonymous; other])
  /\ ~ In other (Common.interestComplaints [VNull] [anonymous; other]).
Proof.
  intros ticketsData anonymous other.
  pose proof (interestComplaints_selects ticketsData [anonymous; other]
                [VNull] anonymous eq_refl) as A.
  pose proof (interestComplaints_selects ticketsData [anonymous; other]
                [VNull] other eq_refl) as O.
  split.
  - apply A. split; [left; reflexivity|].
    eexists _, _. split; [left; reflexivity|]. repeat split.
  - intros H. apply O in H.
    destruct H as (_ & t & reason & [<-|[]] & _ & _ & S). discriminate S.
Defined.

(** ** Question 2: the two ways of counting *)

Lemma filter_split_length {A} (p q : A -> bool) (xs : list A) :
  (forall x, In x xs -> p x = true -> q x = false) ->
  lengthZ (filter (fun x => p x || q x) xs)
  = lengthZ (filter p xs) + lengthZ (filter q xs).
Proof.
  unfold lengthZ. induction xs as [|x xs IH]; intros D; [reflexivity|].
  cbn [filter]. assert (Dx := D x (or_introl eq_refl)).
  assert (IH' := IH (fun y Hy => D y (or_intror Hy))).
  destruct (p x) eqn:P.
  - rewrite (Dx eq_refl). cbn [orb List.length]. lia.
  - destruct (q x); cbn [orb List.length]; lia.
Qed.

(** X4.  On the same complaints the [reduce] of [page.tsx] and the [reduce] of the
    typed revision count the same total, and [page.tsx] counts as within SLA
    what the typed revision counts plus every complaint with a null duration,
    that is, every complaint one of whose two timestamps is falsy. *)
Theorem Page_withinSLA_exceeds_by_null_durations (h : Host)
    (cs : list ComplaintData.t) :
  Common.total (Page.complaintsSLA h cs)
  = Common.total (Part000.complaintsSLA h cs)
  /\ Common.withinSLA (Page.complaintsSLA h cs)
     = Common.withinSLA (Part000.complaintsSLA h cs)
       + lengthZ (filter (fun c =>
                            negb (truthy (ComplaintData.CREATED_AT c))
                            || negb (truthy (ComplaintData.SOLVED_AT c)))
                    cs).
Proof.
  rewrite Page_complaintsSLA_counts, Part000_complaintsSLA_counts.
  cbn [Common.total Common.withinSLA]. split; [reflexivity|].
  rewrite <- filter_split_length.
  - f_equal. apply filter_ext. intros c.
    unfold Spec.withinSLA, Common.calculateTTS.
    destruct (negb (truthy (ComplaintData.CREATED_AT c))
              || negb (truthy (ComplaintData.SOLVED_AT c)));
      [reflexivity | now rewrite orb_false_r].
  - intros c _. unfold Spec.withinSLA, Common.calculateTTS.
    destruct (negb (truthy (ComplaintData.CREATED_AT c))
              || negb (truthy (ComplaintData.SOLVED_AT c)));
      [discriminate | reflexivity].
Qed.

Lemma complaintsSLA_timed (h : Host) (cs : list ComplaintData.t) :
  (forall c, In c cs ->
             truthy (ComplaintData.CREATED_AT c) = true
             /\ truthy (ComplaintData.SOLVED_AT c) = true) ->
  Page.complaintsSLA h cs = Part000.complaintsSLA h cs.
Proof.
  intros T. rewrite Page_complaintsSLA_counts, Part000_complaintsSLA_counts.
  do 2 f_equal. apply filter_ext_in. intros c Hc.
  unfold Spec.withinSLA, Common.calculateTTS.
  destruct (T c Hc) as [-> ->]. reflexivity.
Qed.

(** X5.  When every complaint has both timestamps, [page.tsx] and the typed
    revision store the same results, from whatever states the two runs
    start: the two revisions differ on complaints with a missing timestamp
    only. *)
Theorem Page_and_Part000_agree_on_timed_complaints (h : Host) (w : World)
    (personalData : list PersonalData.t) (ticketsData : list TicketData.t)
    (complaintsData : list ComplaintData.t) (st1 st2 : State)
    (Htimed : forall c, In c complaintsData ->
                truthy (ComplaintData.CREATED_AT c) = true
                /\ truthy (ComplaintData.SOLVED_AT c) = true) :
  results (Page.analyzeData h w personalData ticketsData complaintsData st1)
  = results (Part000.analyzeData h w
               {| personal := Some personalData;
                  tickets := Some ticketsData;
                  complaints := Some complaintsData |} st2).
Proof.
  rewrite Page_analyzeData_results, Part000_analyzeData_results.
  destruct (Common.interestTickets ticketsData) as [interest|]; auto.
  destruct (Common.transferTickets _ ticketsData) as [transfer|]; auto.
  rewrite (complaintsSLA_timed h
             (Common.interestComplaints interest complaintsData)); auto.
  intros c Hc. apply filter_In in Hc. destruct Hc as [Hc _]. auto.
Qed.

(** One complaint solved within the SLA and one beyond it, both with their
    two timestamps: both revisions store 50 %. *)
Lemma Page_and_Part000_agree_on_timed_complaints_witness :
  let ticketsData := [TicketData.mk (VStr "A1") (VStr "2024-08-01T00:00:00Z")
                        (VStr "2024-08-04T00:00:00Z") (VStr "closed")
                        (VStr "interest rate question")] in
  let complaintsData :=
    [ComplaintData.mk (VStr "A1") (VStr "2024-08-01T00:00:00Z")
       (VStr "2024-08-04T00:00:00Z");
     ComplaintData.mk (VStr "A1") (VStr "2024-08-01T00:00:00Z")
       (VStr "2024-08-31T00:00:00Z")] in
  option_map (fun r => value (q2 r))
    (results (Part000.analyzeData Hosts.utc Hosts.noon
                {| personal := Some []; tickets := Some ticketsData;
                   complaints := Some complaintsData |} Hosts.initial))
  = Some (Some (ofZ 50)).
Proof.
  intros ticketsData complaintsData.
  rewrite <- (Page_and_Part000_agree_on_timed_complaints Hosts.utc Hosts.noon
                [] ticketsData complaintsData Hosts.initial Hosts.initial).
  - vm_compute. reflexivity.
  - intros c [<-|[<-|[]]]; split; reflexivity.
Defined.

(* ================================================================== *)
(** * How a run ends *)
(* ================================================================== *)

Lemma filterR_Throw {A} (f : A -> Result bool) (xs : list A) (e : Exn) :
  filterR f xs = Throw e -> exists x, In x xs /\ f x = Throw e.
Proof.
  induction xs as [|x xs IH]; cbn; [discriminate|].
  destruct (f x) as [b|e'] eqn:F; cbn.
  - destruct (filterR f xs) as [ys|e'']; cbn; [discriminate|].
    intros E. injection E as <-. destruct (IH eq_refl) as (y & Hy & Fy).
    eauto.
  - intros E. injection E as <-. eauto.
Qed.

Lemma textual_dec (ts : list TicketData.t) :
  (forall t, In t ts -> Spec.textual (TicketData.CONTACT_REASON_VALUE t))
  \/ (exists t, In t ts
                /\ ~ Spec.textual (TicketData.CONTACT_REASON_VALUE t)).
Proof.
  induction ts as [|t ts [IH|(x & Hx & N)]].
  - left. intros t [].
  - destruct (TicketData.CONTACT_REASON_VALUE t) eqn:C;
      try (left; intros x [<-|Hx]; [rewrite C; exact I | now apply IH]);
      right; exists t; (split; [now left | rewrite C; intros []]).
  - right. exists x. split; [now right | exact N].
Qed.

(** The scan for "interest" throws exactly when some contact reason is not
    a string, [null] or [undefined] (a number, a boolean or a [Date]), and
    what it throws is a TypeError. *)
Lemma interestTickets_throws (ticketsData : list TicketData.t) :
  (exists t, In t ticketsData
             /\ ~ Spec.textual (TicketData.CONTACT_REASON_VALUE t))
  <-> Common.interestTickets ticketsData = Throw TypeError.
Proof.
  split.
  - intros (t & Ht & N).
    destruct (Common.interestTickets ticketsData) as [s|e] eqn:E.
    + exfalso. apply N.
      apply (proj2 (interestTickets_total ticketsData)); eauto.
    + unfold Common.interestTickets in E.
      destruct (filterR _ ticketsData) as [ys|e'] eqn:R; [discriminate|].
      cbn in E. injection E as <-.
      apply filterR_Throw in R. destruct R as (x & _ & F).
      destruct (TicketData.CONTACT_REASON_VALUE x); cbn in F;
        try discriminate; injection F as <-; reflexivity.
  - intros E. destruct (textual_dec ticketsData) as [T|N]; auto.
    apply interestTickets_total in T. destruct T as [s S]. congruence.
Qed.

(* ================================================================== *)
(** * Empty aggregates *)
(* ================================================================== *)

(** C5, as the code has it.  When no selected ticket has a non-null
    duration, [_.mean] of the empty array is NaN and question 1 neither
    throws nor reports anything: on a host whose [toFixed] prints NaN as
    "NaN", the run of [page.tsx] logs "Average TTS: NaN days" as an entry of
    type [info] and goes on to question 2.  If every contact reason is a
    string, [null] or [undefined], the run (and that of the typed revision)
    then ends normally and stores NaN as the Q1 value under the answer ["b"]
    and the explanation of every other run; otherwise the run ends on the
    TypeError of the scan of question 2, whatever question 1 has selected. *)
Theorem Q1_empty_mean_is_NaN (h : Host) (w : World)
    (personalData : list PersonalData.t) (ticketsData : list TicketData.t)
    (complaintsData : list ComplaintData.t) (st : State)
    (Hempty : Common.germanAugustTTS h personalData ticketsData = [])
    (HtoFixed : toFixed h NaN 3 = "NaN") :
  let run :=
    Page.analyzeData h w personalData ticketsData complaintsData st in
  let run0 :=
    Part000.analyzeData h w
      {| personal := Some personalData; tickets := Some ticketsData;
         complaints := Some complaintsData |} st in
  let stored :=
    {| value := Some NaN;
       answer := "b";
       explanation :=
         "Average TTS for German customers in August was 3.360 days" |} in
  Common.averageGermanTTS h personalData ticketsData = NaN
  /\ nth_error (logs run) 13
     = Some {| timestamp := now w (13 + clockReads st)%nat;
               message := "└─ Average TTS: NaN days";
               type := info |}
  /\ nth_error (logs run) 14
     = Some {| timestamp := now w (14 + clockReads st)%nat;
               message := "⏳ Analyzing Q2: Interest complaints within SLA...";
               type := info |}
  /\ ((forall t, In t ticketsData ->
                 Spec.textual (TicketData.CONTACT_REASON_VALUE t)) ->
      (exists r,
         results run = Some r /\ q1 r = stored
         /\ List.length (logs run) = 24%nat
         /\ nth_error (logs run) 23
            = Some {| timestamp := now w (23 + clockReads st)%nat;
                      message := "✅ Results ready for review";
                      type := info |})
      /\ (exists r0, results run0 = Some r0 /\ q1 r0 = stored))
  /\ ((exists t, In t ticketsData
                 /\ ~ Spec.textual (TicketData.CONTACT_REASON_VALUE t)) ->
      results run = None
      /\ List.length (logs run) = 16%nat
      /\ nth_error (logs run) 15
         = Some {| timestamp := now w (15 + clockReads st)%nat;
                   message := "❌ Error during analysis: "
                              ++ typeErrorMessage h;
                   type := error |}).
Proof.
  cbv zeta.
  assert (A : Common.averageGermanTTS h personalData ticketsData = NaN).
  { unfold Common.averageGermanTTS. rewrite Hempty. reflexivity. }
  split; [exact A|].
  assert (L : forall i o,
             Common.interestTickets ticketsData = i ->
             Common.transferTickets (Common.frenchCustomers personalData)
               ticketsData = o ->
             nth_error (logs (Page.analyzeData h w personalData ticketsData
                                complaintsData st)) 13
             = Some {| timestamp := now w (13 + clockReads st)%nat;
                       message := "└─ Average TTS: NaN days";
                       type := info |}
             /\ nth_error (logs (Page.analyzeData h w personalData
                                   ticketsData complaintsData st)) 14
                = Some {| timestamp := now w (14 + clockReads st)%nat;
                          message :=
                            "⏳ Analyzing Q2: Interest complaints within SLA...";
                          type := info |}).
  { intros i o Hi Ho.
    unfold Page.analyzeData, Page.tryBlock, bindM, update, lift.
    rewrite A, HtoFixed, Hi, Ho.
    destruct i as [interest|e]; [destruct o as [transfer|e]|];
      split; reflexivity. }
  destruct (L _ _ eq_refl eq_refl) as [L13 L14].
  split; [exact L13|]. split; [exact L14|]. split.
  - intros T.
    destruct (proj1 (interestTickets_total ticketsData) T) as [s S].
    destruct (proj1 (transferTickets_total
                       (Common.frenchCustomers personalData) ticketsData) T)
      as [ts X].
    split.
    + unfold Page.analyzeData, Page.tryBlock, bindM, update, lift.
      rewrite A, S, X. eexists. repeat split.
    + rewrite Part000_analyzeData_results, A, S, X. eexists.
      split; reflexivity.
  - intros N. apply interestTickets_throws in N.
    unfold Page.analyzeData, Page.tryBlock, bindM, update, lift.
    rewrite N. split; [reflexivity|]. split; reflexivity.
Qed.

(** A German customer whose only ticket is still open: nothing is selected,
    "Average TTS: NaN days" is logged, and the run stores NaN.  The same
    tables with a contact reason typed as a number: the run ends on the
    TypeError of question 2. *)
Lemma Q1_empty_mean_is_NaN_witness :
  let personalData := [PersonalData.mk (VStr "A1") (VStr "DE")] in
  let ticket reason :=
    TicketData.mk (VStr "A1") (VStr "2024-08-01T00:00:00Z") VNull
      (VStr "open") reason in
  let run reason :=
    Page.analyzeData Hosts.utc Hosts.noon personalData [ticket reason] []
      Hosts.initial in
  option_map message (nth_error (logs (run (VStr "card blocked"))) 13)
  = Some "└─ Average TTS: NaN days"
  /\ (exists r, results (run (VStr "card blocked")) = Some r
                /\ value (q1 r) = Some NaN)
  /\ results (run (VNum (ofZ 42))) = None
  /\ option_map type (nth_error (logs (run (VNum (ofZ 42)))) 15) = Some error.
Proof.
  intros personalData ticket run.
  destruct (Q1_empty_mean_is_NaN Hosts.utc Hosts.noon personalData
              [ticket (VStr "card blocked")] [] Hosts.initial
              eq_refl eq_refl) as (_ & L13 & _ & S & _).
  destruct (Q1_empty_mean_is_NaN Hosts.utc Hosts.noon personalData
              [ticket (VNum (ofZ 42))] [] Hosts.initial
              eq_refl eq_refl) as (_ & _ & _ & _ & F).
  destruct S as [(r & R & Q & _) _].
  { intros t [<-|[]]. exact I. }
  destruct F as (N & _ & L15).
  { exists (ticket (VNum (ofZ 42))). split; [left; reflexivity|].
    intros []. }
  split; [|split; [|split]].
  - unfold run. rewrite L13. reflexivity.
  - exists r. split; [exact R|]. rewrite Q. reflexivity.
  - exact N.
  - unfold run. rewrite L15. reflexivity.
Defined.

(** C6, as the code has it.  Provided every contact reason is a string,
    [null] or [undefined] (otherwise the scan of question 2 throws), the run
    stores results and ends normally, and the Q2 value is the binary64 value
    of [withinSLA / total * 100], where [total] counts the complaints of the
    interest cohort and [withinSLA] those of them whose duration is non-null
    and at most 14 days: in the typed revision always, in [page.tsx] when
    every selected complaint has its two timestamps.  This holds for every
    [total]: when it is 0 the value is NaN, which [page.tsx] logs as
    "SLA compliance: NaN%" (type [info], on a host whose [toFixed] prints NaN
    as "NaN") and stores under the answer ["b"] and the explanation of every
    other run. *)
Theorem Q2_percentage (h : Host) (w : World)
    (personalData : list PersonalData.t) (ticketsData : list TicketData.t)
    (complaintsData : list ComplaintData.t) (st : State)
    (Htextual : forall t, In t ticketsData ->
                  Spec.textual (TicketData.CONTACT_REASON_VALUE t)) :
  let run :=
    Page.analyzeData h w personalData ticketsData complaintsData st in
  let run0 :=
    Part000.analyzeData h w
      {| personal := Some personalData; tickets := Some ticketsData;
         complaints := Some complaintsData |} st in
  exists interest r r0,
    Common.interestTickets ticketsData = Ok interest
    /\ results run = Some r
    /\ results run0 = Some r0
    /\ let selected := Common.interestComplaints interest complaintsData in
       let total := lengthZ selected in
       let withinSLA := lengthZ (filter (Spec.withinSLA h) selected) in
       let percentage :=
         mul (div (ofZ withinSLA) (ofZ total)) (ofZ 100) in
       0 <= withinSLA <= total
       /\ q2 r0
          = {| value := Some percentage;
               answer := "b";
               explanation :=
                 "67.9% of interest-related complaints were resolved within SLA" |}
       /\ answer (q2 r) = "b"
       /\ explanation (q2 r)
          = "67.9% of interest-related complaints were resolved within SLA"
       /\ ((forall c, In c selected ->
                      truthy (ComplaintData.CREATED_AT c) = true
                      /\ truthy (ComplaintData.SOLVED_AT c) = true) ->
           value (q2 r) = Some percentage
           /\ option_map message (nth_error (logs run) 16)
              = Some ("└─ SLA compliance: " ++ toFixed h percentage 1 ++ "%"))
       /\ List.length (logs run) = 24%nat
       /\ nth_error (logs run) 23
          = Some {| timestamp := now w (23 + clockReads st)%nat;
                    message := "✅ Results ready for review";
                    type := info |}
       /\ (total = 0 ->
           percentage = NaN
           /\ value (q2 r) = Some NaN
           /\ value (q2 r0) = Some NaN
           /\ (toFixed h NaN 1 = "NaN" ->
               nth_error (logs run) 16
               = Some {| timestamp := now w (16 + clockReads st)%nat;
                         message := "└─ SLA compliance: NaN%";
                         type := info |})).
Proof.
  cbv zeta.
  destruct (proj1 (interestTickets_total ticketsData) Htextual)
    as [interest S].
  destruct (proj1 (transferTickets_total
                     (Common.frenchCustomers personalData) ticketsData)
              Htextual) as [ts X].
  set (selected := Common.interestComplaints interest complaintsData).
  assert (B : 0 <= lengthZ (filter (Spec.withinSLA h) selected)
              <= lengthZ selected).
  { unfold lengthZ.
    pose proof (filter_length_le (Spec.withinSLA h) selected). lia. }
  assert (P0 : Common.slaPercentage (Part000.complaintsSLA h selected)
               = mul (div (ofZ (lengthZ (filter (Spec.withinSLA h) selected)))
                          (ofZ (lengthZ selected))) (ofZ 100)).
  { rewrite Part000_complaintsSLA_counts. reflexivity. }
  assert (Z0 : lengthZ selected = 0 ->
               Page.complaintsSLA h selected
               = Part000.complaintsSLA h selected
               /\ mul (div (ofZ (lengthZ (filter (Spec.withinSLA h)
                                            selected)))
                           (ofZ (lengthZ selected))) (ofZ 100) = NaN).
  { intros E. destruct selected as [|c cs].
    - split; reflexivity.
    - unfold lengthZ in E. cbn [List.length] in E. lia. }
  eexists interest, _, _. split; [exact S|].
  split.
  { rewrite Page_analyzeData_results, S, X. reflexivity. }
  split.
  { rewrite Part000_analyzeData_results, S, X. reflexivity. }
  cbn [q2 value answer explanation]. fold selected.
  split; [exact B|]. split; [now rewrite P0|].
  split; [reflexivity|]. split; [reflexivity|].
  split.
  { intros T. rewrite (complaintsSLA_timed h selected T), P0.
    split; [reflexivity|].
    unfold Page.analyzeData, Page.tryBlock, bindM, update, lift.
    rewrite S, X. fold selected.
    rewrite (complaintsSLA_timed h selected T), P0. reflexivity. }
  split.
  { unfold Page.analyzeData, Page.tryBlock, bindM, update, lift.
    rewrite S, X. reflexivity. }
  split.
  { unfold Page.analyzeData, Page.tryBlock, bindM, update, lift.
    rewrite S, X. reflexivity. }
  intros E. destruct (Z0 E) as [EQ N].
  split; [exact N|]. rewrite EQ, P0, N.
  split; [reflexivity|]. split; [reflexivity|].
  intros F.
  unfold Page.analyzeData, Page.tryBlock, bindM, update, lift.
  rewrite S, X. fold selected. rewrite EQ, P0, N, F. reflexivity.
Qed.

(** With one ticket about interest: two complaints of its account, solved
    in three and in thirty days, give 50 % in both revisions; no complaint at
    all gives NaN, logged as "SLA compliance: NaN%". *)
Lemma Q2_percentage_witness :
  let ticketsData := [TicketData.mk (VStr "A1") (VStr "2024-08-01T00:00:00Z")
                        (VStr "2024-08-04T00:00:00Z") (VStr "closed")
                        (VStr "Interest rate question")] in
  let complaintsData :=
    [ComplaintData.mk (VStr "A1") (VStr "2024-08-01T00:00:00Z")
       (VStr "2024-08-04T00:00:00Z");
     ComplaintData.mk (VStr "A1") (VStr "2024-08-01T00:00:00Z")
       (VStr "2024-08-31T00:00:00Z")] in
  let run cs :=
    Page.analyzeData Hosts.utc Hosts.noon [] ticketsData cs Hosts.initial in
  (exists r, results (run complaintsData) = Some r
             /\ value (q2 r) = Some (ofZ 50))
  /\ (exists r, results (run []) = Some r /\ value (q2 r) = Some NaN)
  /\ option_map message (nth_error (logs (run [])) 16)
     = Some "└─ SLA compliance: NaN%".
Proof.
  intros ticketsData complaintsData run.
  assert (T : forall t, In t ticketsData ->
                        Spec.textual (TicketData.CONTACT_REASON_VALUE t))
    by (intros t [<-|[]]; exact I).
  destruct (Q2_percentage Hosts.utc Hosts.noon [] ticketsData complaintsData
              Hosts.initial T)
    as (i1 & r1 & q1' & I1 & R1 & _ & _ & _ & _ & _ & V1 & _).
  destruct (Q2_percentage Hosts.utc Hosts.noon [] ticketsData []
              Hosts.initial T)
    as (i2 & r2 & q2' & I2 & R2 & _ & _ & _ & _ & _ & _ & _ & _ & Z2).
  vm_compute in I1, I2. injection I1 as E1. injection I2 as E2.
  subst i1 i2.
  destruct V1 as [V1 _].
  { intros c [<-|[<-|[]]]; split; reflexivity. }
  destruct (Z2 eq_refl) as (_ & V2 & _ & L2).
  split; [|split].
  - exists r1. split; [exact R1|]. rewrite V1. reflexivity.
  - exists r2. split; [exact R2 | exact V2].
  - unfold run. rewrite (L2 eq_refl). reflexivity.
Defined.

(** X6.  How a run of [page.tsx] ends.  The analyzing flag is always cleared.
    When every contact reason is a string, [null] or [undefined], results are
    stored and the log has 24 entries, the last one being the closing
    message.  When some contact reason is a number, a boolean or a [Date],
    the run always fails in question 2, after the Q1 mean was logged: no results are
    stored and the log has 16 entries, the last one being the message of the
    TypeError with type [error]. *)
Theorem Page_run_outcome (h : Host) (w : World)
    (personalData : list PersonalData.t) (ticketsData : list TicketData.t)
    (complaintsData : list ComplaintData.t) (st : State) :
  let run :=
    Page.analyzeData h w personalData ticketsData complaintsData st in
  isAnalyzing run = false
  /\ ((forall t, In t ticketsData ->
                 Spec.textual (TicketData.CONTACT_REASON_VALUE t)) ->
      (exists r, results run = Some r)
      /\ List.length (logs run) = 24%nat
      /\ nth_error (logs run) 23
         = Some {| timestamp := now w (23 + clockReads st)%nat;
                   message := "✅ Results ready for review";
                   type := info |})
  /\ ((exists t, In t ticketsData
                 /\ ~ Spec.textual (TicketData.CONTACT_REASON_VALUE t)) ->
      results run = None
      /\ map message (logs run)
         = [ "🚀 Initializing Trade Republic data analysis...";
             "⚙️  Setting up analysis environment...";
             "📊 Starting data ingestion phase...";
             "📥 Reading personal data file...";
             "✓ Successfully parsed "
               ++ toLocaleString h (lengthZ personalData)
               ++ " personal records";
             "📥 Reading tickets data file...";
             "✓ Successfully parsed "
               ++ toLocaleString h (lengthZ ticketsData)
               ++ " ticket records";
             "📥 Reading complaints data file...";
             "✓ Successfully parsed "
               ++ toLocaleString h (lengthZ complaintsData)
               ++ " complaint records";
             "🔍 Beginning data analysis phase...";
             "⏳ Analyzing Q1: German customers TTS in August...";
             "└─ Found "
               ++ toLocaleString h
                    (size (Common.germanCustomers personalData))
               ++ " German customers";
             "└─ Processed "
               ++ toLocaleString h
                    (lengthZ (Common.germanAugustTickets h personalData
                                ticketsData))
               ++ " German August tickets";
             "└─ Average TTS: "
               ++ toFixed h
                    (Common.averageGermanTTS h personalData ticketsData) 3
               ++ " days";
             "⏳ Analyzing Q2: Interest complaints within SLA...";
             "❌ Error during analysis: " ++ typeErrorMessage h ]
      /\ nth_error (logs run) 15
         = Some {| timestamp := now w (15 + clockReads st)%nat;
                   message := "❌ Error during analysis: "
                              ++ typeErrorMessage h;
                   type := error |}).
Proof.
  cbv zeta. split; [|split].
  - unfold Page.analyzeData.
    destruct (Page.tryBlock _ _ _ _ _ _) as [[u|e] st']; reflexivity.
  - intros T.
    destruct (proj1 (interestTickets_total ticketsData) T) as [s S].
    destruct (proj1 (transferTickets_total
                       (Common.frenchCustomers personalData) ticketsData) T)
      as [ts X].
    unfold Page.analyzeData, Page.tryBlock, bindM, update, lift.
    rewrite S, X. split; [eexists; reflexivity|]. split; reflexivity.
  - intros N. apply interestTickets_throws in N.
    unfold Page.analyzeData, Page.tryBlock, bindM, update, lift.
    rewrite N. split; [reflexivity|]. split; reflexivity.
Qed.

(** A ticket whose contact reason was typed as the number 42 by the CSV
    parser: the run of [page.tsx] ends on the error entry. *)
Lemma Page_run_outcome_witness :
  let ticketsData := [TicketData.mk (VStr "A1") (VStr "2024-08-01T00:00:00Z")
                        VNull (VStr "open") (VNum (ofZ 42))] in
  let run := Page.analyzeData Hosts.utc Hosts.noon [] ticketsData []
               Hosts.initial in
  results run = None
  /\ option_map type (nth_error (logs run) 15) = Some error
  /\ List.length
       (logs (Page.analyzeData Hosts.utc Hosts.noon [] [] [] Hosts.initial))
     = 24%nat.
Proof.
  intros ticketsData run.
  destruct (Page_run_outcome Hosts.utc Hosts.noon [] ticketsData []
              Hosts.initial) as (_ & _ & F).
  destruct F as (R & _ & L).
  { exists (TicketData.mk (VStr "A1") (VStr "2024-08-01T00:00:00Z")
              VNull (VStr "open") (VNum (ofZ 42))).
    split; [left; reflexivity | intros []]. }
  destruct (Page_run_outcome Hosts.utc Hosts.noon [] [] [] Hosts.initial)
    as (_ & S & _).
  destruct S as (_ & N & _); [intros t []|].
  split; [exact R|]. split; [|exact N].
  unfold run. rewrite L. reflexivity.
Defined.

(** X7.  The typed revision stores results exactly when the three files are
    there and every contact reason is a string, [null] or [undefined]: a
    number, a boolean or the [Date] object that the parser makes of a cell in
    ISO date-time format has no [toLowerCase] and ends the run. *)
Theorem Part000_stores_results_iff (h : Host) (w : World) (files : FileState)
    (st : State) :
  (exists r, results (Part000.analyzeData h w files st) = Some r)
  <-> exists personalData ticketsData complaintsData,
        personal files = Some personalData
        /\ tickets files = Some ticketsData
        /\ complaints files = Some complaintsData
        /\ forall t, In t ticketsData ->
                     Spec.textual (TicketData.CONTACT_REASON_VALUE t).
Proof.
  destruct files as [[ps|] [ts|] [cs|]];
    try (split;
         [ intros [r E];
           unfold Part000.analyzeData, Part000.tryBlock, Part000.required,
             bindM, update, lift, ret in E;
           cbn [personal tickets complaints] in E; discriminate E
         | intros (p & t & c & P & T & C & _);
           cbn [personal tickets complaints] in *; discriminate ]).
  rewrite Part000_analyzeData_results. split.
  - intros [r E]. exists ps, ts, cs. repeat split.
    destruct (Common.interestTickets ts) eqn:I; [|discriminate].
    apply interestTickets_total. eauto.
  - intros (p & t & c & P & T & C & X).
    cbn [personal tickets complaints] in *.
    injection P as <-. injection T as <-. injection C as <-.
    destruct (proj1 (interestTickets_total ts) X) as [s ->].
    destruct (proj1 (transferTickets_total (Common.frenchCustomers ps) ts) X)
      as [tt ->].
    eauto.
Qed.

(** Three files, one ticket: with the contact reason "card blocked" results
    are stored; with a contact reason that the parser turned into a [Date]
    (the cell read 2024-08-01T00:00:00Z) none are. *)
Lemma Part000_stores_results_iff_witness :
  let files reason :=
    {| personal := Some [];
       tickets := Some [TicketData.mk (VStr "A1") VNull VNull (VStr "open")
                          reason];
       complaints := Some [] |} in
  (exists r, results (Part000.analyzeData Hosts.utc Hosts.noon
                        (files (VStr "card blocked")) Hosts.initial)
             = Some r)
  /\ results (Part000.analyzeData Hosts.utc Hosts.noon
                (files (VDate 0 (Some 1722470400000))) Hosts.initial)
     = None.
Proof.
  intros files. split.
  - apply (Part000_stores_results_iff Hosts.utc Hosts.noon
             (files (VStr "card blocked")) Hosts.initial).
    eexists _, _, _. repeat split. intros t [<-|[]]. exact I.
  - destruct (results (Part000.analyzeData Hosts.utc Hosts.noon
                         (files (VDate 0 (Some 1722470400000)))
                         Hosts.initial)) as [r|] eqn:E; [|reflexivity].
    exfalso.
    destruct (proj1 (Part000_stores_results_iff Hosts.utc Hosts.noon
                       (files (VDate 0 (Some 1722470400000))) Hosts.initial))
      as (p & t & c & _ & T & _ & X); [eauto|].
    injection T as <-. exact (X _ (or_introl eq_refl)).
Defined.

(** X8.  Missing files in the typed revision.  The files are asked for one after
    the other, personal, tickets, complaints, and the first missing one ends
    the run: its name is in the last log entry, of type [error], the files
    before it have already been reported as parsed, and no results are
    stored. *)
Theorem Part000_missing_file (h : Host) (w : World) (files : FileState)
    (st : State) :
  let run := Part000.analyzeData h w files st in
  (personal files = None ->
   results run = None
   /\ List.length (logs run) = 5%nat
   /\ nth_error (logs run) 4
      = Some {| timestamp := now w (4 + clockReads st)%nat;
                message := "❌ Error during analysis: Personal data file is required";
                type := error |})
  /\ (forall personalData,
        personal files = Some personalData -> tickets files = None ->
        results run = None
        /\ List.length (logs run) = 7%nat
        /\ option_map message (nth_error (logs run) 4)
           = Some ("✓ Successfully parsed "
                   ++ toLocaleString h (lengthZ personalData)
                   ++ " personal records")
        /\ nth_error (logs run) 6
           = Some {| timestamp := now w (6 + clockReads st)%nat;
                     message := "❌ Error during analysis: Tickets data file is required";
                     type := error |})
  /\ (forall personalData ticketsData,
        personal files = Some personalData ->
        tickets files = Some ticketsData ->
        complaints files = None ->
        results run = None
        /\ List.length (logs run) = 9%nat
        /\ nth_error (logs run) 8
           = Some {| timestamp := now w (8 + clockReads st)%nat;
                     message := "❌ Error during analysis: Complaints data file is required";
                     type := error |}).
Proof.
  cbv zeta. destruct files as [ps ts cs].
  cbn [personal tickets complaints].
  unfold Part000.analyzeData, Part000.tryBlock, Part000.required,
    bindM, update, lift, ret.
  cbn [personal tickets complaints].
  split; [|split].
  - intros ->. repeat split.
  - intros p -> ->. repeat split.
  - intros p t -> -> ->. repeat split.
Qed.

(** The three cases on the UTC host. *)
Lemma Part000_missing_file_witness :
  option_map message
    (nth_error (logs (Part000.analyzeData Hosts.utc Hosts.noon
                        {| personal := None; tickets := None;
                           complaints := None |} Hosts.initial)) 4)
  = Some "❌ Error during analysis: Personal data file is required"
  /\ option_map message
       (nth_error (logs (Part000.analyzeData Hosts.utc Hosts.noon
                           {| personal := Some []; tickets := None;
                              complaints := Some [] |} Hosts.initial)) 6)
     = Some "❌ Error during analysis: Tickets data file is required"
  /\ option_map message
       (nth_error (logs (Part000.analyzeData Hosts.utc Hosts.noon
                           {| personal := Some []; tickets := Some [];
                              complaints := None |} Hosts.initial)) 8)
     = Some "❌ Error during analysis: Complaints data file is required".
Proof.
  destruct (Part000_missing_file Hosts.utc Hosts.noon
              {| personal := None; tickets := None; complaints := None |}
              Hosts.initial) as (A & _ & _).
  destruct (A eq_refl) as (_ & _ & A4).
  destruct (Part000_missing_file Hosts.utc Hosts.noon
              {| personal := Some []; tickets := None; complaints := Some [] |}
              Hosts.initial) as (_ & B & _).
  destruct (B [] eq_refl eq_refl) as (_ & _ & _ & B6).
  destruct (Part000_missing_file Hosts.utc Hosts.noon
              {| personal := Some []; tickets := Some []; complaints := None |}
              Hosts.initial) as (_ & _ & C).
  destruct (C [] [] eq_refl eq_refl eq_refl) as (_ & _ & C8).
  rewrite A4, B6, C8. split; [|split]; reflexivity.
Defined.

(** X9.  Missing files in [part_001]: whichever of the three files is missing,
    the run ends after three log entries with the same message, of type
    [error], and stores no results. *)
Theorem Part001_missing_file (h : Host) (w : World) (files : FileState)
    (st : State)
    (Hmissing : personal files = None \/ tickets files = None
                \/ complaints files = None) :
  let run := Part001.analyzeData h w files st in
  results run = None
  /\ isAnalyzing run = false
  /\ map message (logs run)
     = [ "🚀 Initializing Trade Republic data analysis...";
         "⚙️ Setting up analysis environment...";
         "📊 Starting data ingestion phase...";
         "❌ Error during analysis: All files are required for analysis" ]
  /\ map type (logs run) = [info; info; info; error].
Proof.
  cbv zeta.
  unfold Part001.analyzeData, Part001.tryBlock, bindM, update, lift.
  destruct files as [[ps|] [ts|] [cs|]]; cbn [personal tickets complaints] in *;
    try (repeat split; fail).
  destruct Hmissing as [H|[H|H]]; discriminate H.
Qed.

Lemma Part001_missing_file_witness :
  map type
    (logs (Part001.analyzeData Hosts.utc Hosts.noon
             {| personal := Some []; tickets := Some []; complaints := None |}
             Hosts.initial))
  = [info; info; info; error].
Proof.
  apply (Part001_missing_file Hosts.utc Hosts.noon
           {| personal := Some []; tickets := Some []; complaints := None |}
           Hosts.initial).
  right. right. reflexivity.
Defined.

(* ================================================================== *)
(** * The selection of interest complaints in [part_001] *)
(* ================================================================== *)

Lemma someR_all_Ok {A} (f : A -> Result bool) (g : A -> bool) (xs : list A) :
  (forall x, In x xs -> f x = Ok (g x)) ->
  someR f xs = Ok (existsb g xs).
Proof.
  induction xs as [|x xs IH]; intros H; cbn; [reflexivity|].
  rewrite (H x (or_introl eq_refl)). cbn.
  destruct (g x); cbn; [reflexivity|].
  apply IH. intros y Hy. apply H. now right.
Qed.

Lemma filterR_all_Ok {A} (f : A -> Result bool) (g : A -> bool)
    (xs : list A) :
  (forall x, In x xs -> f x = Ok (g x)) ->
  filterR f xs = Ok (filter g xs).
Proof.
  induction xs as [|x xs IH]; intros H; cbn; [reflexivity|].
  rewrite (H x (or_introl eq_refl)). cbn.
  rewrite IH; [reflexivity|]. intros y Hy. apply H. now right.
Qed.

Lemma filter_none {A} (xs : list A) : filter (fun _ => false) xs = [].
Proof. induction xs; auto. Qed.

Lemma existsb_none {A} (xs : list A) : existsb (fun _ => false) xs = false.
Proof. induction xs; auto. Qed.

(** X10.  [part_001] reads the contact reason of a ticket only after its account
    id was found equal to the complaint's: when no ticket shares an account
    id with a complaint, the selection is empty and nothing is thrown,
    whatever the contact reasons are (numbers included, on which the scan of
    [page.tsx] throws). *)
Theorem Part001_unrelated_tickets_are_not_read
    (ticketsData : list TicketData.t) (complaintsData : list ComplaintData.t)
    (Hunrelated : forall t c,
        In t ticketsData -> In c complaintsData ->
        strictEq (TicketData.AUTH_ACCOUNT_ID t)
                 (ComplaintData.AUTH_ACCOUNT_ID c) = false) :
  Part001.interestComplaints ticketsData complaintsData = Ok [].
Proof.
  unfold Part001.interestComplaints.
  rewrite (filterR_all_Ok _ (fun _ => false)).
  - now rewrite filter_none.
  - intros c Hc.
    rewrite (someR_all_Ok _ (fun _ => false)).
    + now rewrite existsb_none.
    + intros t Ht. now rewrite (Hunrelated t c Ht Hc).
Qed.

(** A ticket of ["A1"] with a numeric contact reason and a complaint of
    ["A2"]: [part_001] selects nothing and does not throw, where the scan of
    [page.tsx] throws. *)
Lemma Part001_unrelated_tickets_are_not_read_witness :
  let ticketsData := [TicketData.mk (VStr "A1") VNull VNull (VStr "open")
                        (VNum (ofZ 42))] in
  let complaintsData := [ComplaintData.mk (VStr "A2") VNull VNull] in
  Part001.interestComplaints ticketsData complaintsData = Ok []
  /\ Common.interestTickets ticketsData = Throw TypeError.
Proof.
  intros ticketsData complaintsData. split; [|reflexivity].
  apply Part001_unrelated_tickets_are_not_read.
  intros t c [<-|[]] [<-|[]]. reflexivity.
Defined.

Lemma sameValueZero_strictEq (a b : JsVal) :
  (forall x, b = VNum x -> isNaN x = false) ->
  sameValueZero a b = true -> strictEq a b = true.
Proof.
  intros N. destruct a as [| |x|x|x|x t], b as [| |y|y|y|y u]; cbn; auto.
  rewrite (N y eq_refl), andb_false_r. auto.
Qed.

(** X11.  When every contact reason is a string, [null] or [undefined] and no
    complaint has NaN for account id, the nested scan of [part_001] selects
    the same complaints, in the same order, as the [Set] of [page.tsx]. *)
Theorem Part001_interestComplaints_agree
    (ticketsData : list TicketData.t) (complaintsData : list ComplaintData.t)
    (Htextual : forall t, In t ticketsData ->
                  Spec.textual (TicketData.CONTACT_REASON_VALUE t))
    (Hids : forall c x, In c complaintsData ->
              ComplaintData.AUTH_ACCOUNT_ID c = VNum x -> isNaN x = false) :
  exists interest,
    Common.interestTickets ticketsData = Ok interest
    /\ Part001.interestComplaints ticketsData complaintsData
       = Ok (Common.interestComplaints interest complaintsData).
Proof.
  destruct (proj1 (interestTickets_total ticketsData) Htextual)
    as [interest I].
  exists interest. split; auto.
  unfold Part001.interestComplaints, Common.interestComplaints.
  apply filterR_all_Ok. intros c Hc.
  set (g := fun t =>
              strictEq (TicketData.AUTH_ACCOUNT_ID t)
                       (ComplaintData.AUTH_ACCOUNT_ID c)
              && match TicketData.CONTACT_REASON_VALUE t with
                 | VStr reason => includes (toLowerCase reason) "interest"
                 | _ => false
                 end).
  rewrite (someR_all_Ok _ g).
  - f_equal. apply eq_true_iff_eq.
    rewrite (has_interestTickets ticketsData interest _ I), existsb_exists.
    unfold g. split.
    + intros (t & Ht & G). apply andb_true_iff in G. destruct G as [E R].
      destruct (TicketData.CONTACT_REASON_VALUE t) as [| |b|n|reason|i d] eqn:C;
        try discriminate.
      exists t, reason. repeat split; auto.
      now apply strictEq_sameValueZero.
    + intros (t & reason & Ht & C & R & S). exists t. split; auto.
      rewrite C, R, andb_true_r. apply sameValueZero_strictEq; auto.
      intros x. now apply Hids.
  - intros t Ht. unfold g. specialize (Htextual t Ht).
    destruct (strictEq _ _); [|reflexivity].
    destruct (TicketData.CONTACT_REASON_VALUE t); cbn in *;
      (reflexivity || contradiction).
Qed.

Lemma Part001_interestComplaints_agree_witness :
  let ticketsData := [TicketData.mk (VStr "A1") VNull VNull (VStr "open")
                        (VStr "Interest rate"); 
                      TicketData.mk (VStr "A2") VNull VNull (VStr "open")
                        VNull] in
  let complaintsData := [ComplaintData.mk (VStr "A2") VNull VNull;
                         ComplaintData.mk (VStr "A1") VNull VNull] in
  Part001.interestComplaints ticketsData complaintsData
  = Ok [ComplaintData.mk (VStr "A1") VNull VNull].
Proof.
  intros ticketsData complaintsData.
  destruct (Part001_interestComplaints_agree ticketsData complaintsData)
    as (interest & I & E).
  - intros t [<-|[<-|[]]]; exact I.
  - intros c x [<-|[<-|[]]]; discriminate.
  - rewrite E. injection I as <-. reflexivity.
Defined.

(* ================================================================== *)
(** * The display *)
(* ================================================================== *)

Lemma firstn_snoc {A} (xs : list A) (k : nat) (x : A) :
  nth_error xs k = Some x -> (firstn k xs ++ [x])%list = firstn (S k) xs.
Proof.
  revert k. induction xs as [|y ys IH]; intros [|k]; cbn; try discriminate.
  - intros E. injection E as <-. reflexivity.
  - intros E. now rewrite IH.
Qed.

Lemma typingEffect_step (r : number) (st : State) (k : nat) :
  displayedLogs st = firstn k (logs st) ->
  (k <= List.length (logs st))%nat ->
  let st' := snd (typingEffect r st) in
  logs st' = logs st
  /\ results st' = results st
  /\ isAnalyzing st' = isAnalyzing st
  /\ displayedLogs st'
     = firstn (if (k <? List.length (logs st))%nat then S k else k) (logs st)
  /\ showResults st'
     = showResults st
       || ((0 <? List.length (logs st))%nat
           && (k =? List.length (logs st))%nat).
Proof.
  intros P K. cbv zeta. unfold typingEffect.
  assert (L : List.length (displayedLogs st) = k)
    by (rewrite P; apply firstn_length_le; exact K).
  rewrite L.
  destruct (Nat.ltb_spec k (List.length (logs st))) as [H|H].
  - cbn [snd setDisplayedLogs logs results isAnalyzing displayedLogs
           showResults].
    repeat split; auto.
    + rewrite L. destruct (nth_error (logs st) k) as [l|] eqn:N.
      * rewrite P. now apply firstn_snoc.
      * apply nth_error_None in N. lia.
    + replace (k =? List.length (logs st))%nat with false
        by (symmetry; apply Nat.eqb_neq; lia).
      now rewrite andb_false_r, orb_false_r.
  - assert (E : k = List.length (logs st)) by lia.
    rewrite (Nat.eqb_sym (List.length (logs st)) k).
    replace (k =? List.length (logs st))%nat with true
      by (symmetry; apply Nat.eqb_eq; exact E).
    rewrite andb_true_r.
    destruct (0 <? List.length (logs st))%nat;
      cbn [snd setShowResults logs results isAnalyzing displayedLogs
             showResults]; repeat split; auto.
    + now rewrite orb_true_r.
    + now rewrite orb_false_r.
Qed.

(** X12.  The typing effect of [page.tsx], fired repeatedly while the log is left
    alone.  Starting with the first [k] logs displayed, [m] firings leave the
    log, the results and the analyzing flag untouched and display the first
    [k + m] logs, in order, or all of them when there are fewer; the results
    flag is raised by the first firing that finds a non-empty log fully
    displayed, and by no earlier one. *)
Theorem typingSteps_reveal_in_order (rs : list number) (st : State) (k : nat)
    (Hprefix : displayedLogs st = firstn k (logs st))
    (Hk : (k <= List.length (logs st))%nat) :
  let st' := PageView.typingSteps rs st in
  logs st' = logs st
  /\ results st' = results st
  /\ isAnalyzing st' = isAnalyzing st
  /\ displayedLogs st'
     = firstn (Nat.min (k + List.length rs) (List.length (logs st))) (logs st)
  /\ showResults st'
     = showResults st
       || ((0 <? List.length (logs st))%nat
           && (List.length (logs st) - k <? List.length rs)%nat).
Proof.
  cbv zeta. unfold PageView.typingSteps.
  revert st k Hprefix Hk. induction rs as [|r rs IH]; intros st k P K.
  - cbn [fold_left List.length]. repeat split; auto.
    + rewrite Nat.add_0_r, Nat.min_l by exact K. exact P.
    + replace (List.length (logs st) - k <? 0)%nat with false
        by (symmetry; apply Nat.ltb_ge; lia).
      now rewrite andb_false_r, orb_false_r.
  - cbn [fold_left List.length].
    destruct (typingEffect_step r st k P K) as (L1 & R1 & A1 & D1 & Sh1).
    set (st1 := snd (typingEffect r st)) in *.
    set (n := List.length (logs st)) in *.
    set (k1 := if (k <? n)%nat then S k else k) in *.
    assert (K1 : (k1 <= List.length (logs st1))%nat).
    { rewrite L1. unfold k1. fold n.
      destruct (Nat.ltb_spec k n); lia. }
    assert (P1 : displayedLogs st1 = firstn k1 (logs st1))
      by (rewrite L1; exact D1).
    destruct (IH st1 k1 P1 K1) as (L & R & A & D & Sh).
    rewrite L1 in L, D, Sh. fold n in D, Sh.
    repeat split; try congruence.
    + rewrite D. f_equal. unfold k1.
      destruct (Nat.ltb_spec k n); lia.
    + rewrite Sh, Sh1. unfold k1.
      destruct (Nat.ltb_spec 0 n) as [Z|Z]; cbn [andb];
        [|now rewrite !orb_false_r].
      destruct (Nat.ltb_spec k n) as [H|H].
      * replace (k =? n)%nat with false
          by (symmetry; apply Nat.eqb_neq; lia).
        rewrite orb_false_r. f_equal.
        destruct (Nat.ltb_spec (n - S k) (List.length rs)),
                 (Nat.ltb_spec (n - k) (S (List.length rs)));
          (reflexivity || lia).
      * replace (k =? n)%nat with true
          by (symmetry; apply Nat.eqb_eq; lia).
        rewrite orb_true_r. cbn [orb].
        replace (n - k <? S (List.length rs))%nat with true
          by (symmetry; apply Nat.ltb_lt; lia).
        now rewrite orb_true_r.
Qed.

(** After a run on three empty tables nothing is displayed (the run resets
    the display); 24 firings display the 24 entries and one more raises the
    results flag. *)
Lemma typingSteps_reveal_in_order_witness :
  let run := Page.analyzeData Hosts.utc Hosts.noon [] [] [] Hosts.initial in
  displayedLogs (PageView.typingSteps (repeat (ofZ 0) 24) run) = logs run
  /\ showResults (PageView.typingSteps (repeat (ofZ 0) 24) run) = false
  /\ showResults (PageView.typingSteps (repeat (ofZ 0) 25) run) = true.
Proof.
  intros run.
  destruct (typingSteps_reveal_in_order (repeat (ofZ 0) 24) run 0
              eq_refl (Nat.le_0_l _)) as (_ & _ & _ & D & Sh).
  destruct (typingSteps_reveal_in_order (repeat (ofZ 0) 25) run 0
              eq_refl (Nat.le_0_l _)) as (_ & _ & _ & _ & Sh').
  rewrite D, Sh, Sh'. split; [|split]; vm_compute; reflexivity.
Defined.

Lemma typingSteps_results (rs : list number) (st : State) :
  results (PageView.typingSteps rs st) = results st.
Proof.
  unfold PageView.typingSteps.
  revert st. induction rs as [|r rs IH]; intros st; cbn [fold_left]; auto.
  rewrite IH.
  unfold typingEffect.
  destruct (_ <? _)%nat; [reflexivity|].
  destruct (_ && _)%bool; reflexivity.
Qed.

(** X13.  The results card of [page.tsx] does not depend on the tables: after any
    run and any number of firings of the typing effect, the card is either
    absent or shows the same three answers and explanations. *)
Theorem Page_card_is_constant (h : Host) (w : World)
    (personalData : list PersonalData.t) (ticketsData : list TicketData.t)
    (complaintsData : list ComplaintData.t) (st : State)
    (rs : list number) :
  let shown :=
    PageView.resultsCard
      (PageView.typingSteps rs
         (Page.analyzeData h w personalData ticketsData complaintsData st)) in
  shown = None
  \/ shown
     = Some
         [ ("Question 1: German Customer TTS in August", "Answer: b",
            "Average TTS for German customers in August was 3.360 days");
           ("Question 2: Interest Complaints SLA", "Answer: b",
            "67.9% of interest-related complaints were resolved within SLA");
           ("Question 3: French Transfer Complaints", "Answer: b",
            "5 French customers had complaints related to transfer inquiries") ].
Proof.
  cbv zeta. unfold PageView.resultsCard.
  rewrite typingSteps_results, Page_analyzeData_results.
  destruct (showResults _); [|now left].
  destruct (Common.interestTickets ticketsData); [|now left].
  destruct (Common.transferTickets _ ticketsData); [|now left].
  right. reflexivity.
Qed.

(* ================================================================== *)
(** * File inputs *)
(* ================================================================== *)

Lemma logs_addLog (w : World) (text : string) (d : Z) (st : State) :
  List.length (logs (addLog w text d st)) = S (List.length (logs st)).
Proof.
  cbn [addLog readClock setLogs logs]. rewrite length_app. cbn. lia.
Qed.

(** X14.  The file slots after a sequence of change events.  In [page.tsx] a slot
    holds what the last event of its input carried, so that closing the
    dialog without a file empties the slot again; in the typed revision it
    holds the file of the last event of its input that carried one, so that a
    chosen file stays.  In both, one log entry is added per event that
    carries a file, and none for the others. *)
Theorem file_slots_after_events (w : World) (events : list Upload.Event)
    (files : Upload.Files) (st : State) (k : Upload.FileType) :
  fst (PageView.handleEvents w events (files, st)) k
  = match find (fun e => Upload.FileType_eqb k (fst e)) (rev events) with
    | Some e => snd e
    | None => files k
    end
  /\ fst (Part000View.handleEvents w events (files, st)) k
     = match find (fun e => Upload.FileType_eqb k (fst e)
                            && Upload.present (snd e)) (rev events) with
       | Some e => snd e
       | None => files k
       end
  /\ List.length (logs (snd (PageView.handleEvents w events (files, st))))
     = (List.length (logs st)
        + List.length (filter (fun e => Upload.present (snd e)) events))%nat
  /\ List.length (logs (snd (Part000View.handleEvents w events (files, st))))
     = (List.length (logs st)
        + List.length (filter (fun e => Upload.present (snd e)) events))%nat.
Proof.
  unfold PageView.handleEvents, Part000View.handleEvents.
  induction events as [|[t file] events IH] using rev_ind.
  - cbn. repeat split; lia.
  - destruct IH as (P & Q & LP & LQ).
    rewrite !fold_left_app, rev_app_distr, filter_app, length_app.
    cbn [fold_left rev app find fst snd filter].
    destruct (fold_left _ events (files, st)) as [fp sp].
    destruct (fold_left (fun cells event =>
                           Part000View.handleFileUpload w event cells)
                events (files, st)) as [fq sq].
    cbn [fst snd] in *.
    unfold PageView.handleFileUpload, Part000View.handleFileUpload.
    destruct file as [f|]; cbn [fst snd Upload.present andb List.length];
      unfold Upload.set; rewrite ?andb_true_r, ?andb_false_r.
    + rewrite !logs_addLog, LP, LQ, Nat.add_1_r, Nat.add_succ_r.
      destruct (Upload.FileType_eqb k t); repeat split; auto.
    + rewrite LP, LQ, Nat.add_0_r.
      destruct (Upload.FileType_eqb k t); repeat split; auto.
Qed.

(** The words "error" and "success" do not occur in the fixed part of the
    upload message, nor across its end. *)
Lemma upload_message_includes (t : Upload.FileType) (name needle : string) :
  needle = "error" \/ needle = "success" ->
  includes (toLowerCase ("📁 Uploaded " ++ Upload.key t ++ " data file: "
                         ++ name)) needle
  = includes (toLowerCase name) needle.
Proof. intros [->| ->]; destruct t; reflexivity. Qed.

(** X15.  The entry logged for an uploaded file, in [page.tsx] and in the typed
    revision alike, has its type decided by the name of the file: [error]
    when the lowered name contains "error", otherwise [success] when it
    contains "success", otherwise [info]. *)
Theorem upload_log_type_follows_file_name (w : World) (t : Upload.FileType)
    (f : Upload.File) (files : Upload.Files) (st : State) :
  let entry :=
    {| timestamp := now w (clockReads st);
       message := "📁 Uploaded " ++ Upload.key t ++ " data file: "
                  ++ Upload.name f;
       type := if includes (toLowerCase (Upload.name f)) "error" then error
               else if includes (toLowerCase (Upload.name f)) "success"
                    then success
                    else info |} in
  logs (snd (snd (PageView.handleFileUpload w (t, Some f) (files, st))))
  = (logs st ++ [entry])%list
  /\ logs (snd (Part000View.handleFileUpload w (t, Some f) (files, st)))
     = (logs st ++ [entry])%list.
Proof.
  cbv zeta.
  unfold PageView.handleFileUpload, Part000View.handleFileUpload.
  cbn [snd addLog readClock setLogs logs clockReads].
  rewrite !upload_message_includes by auto. split; reflexivity.
Qed.

(* ================================================================== *)
(** * The typing effect of the typed revision *)
(* ================================================================== *)

Lemma ready_message_iff_results (h : Host) (w : World) (files : FileState)
    (st : State) :
  let run := Part000.analyzeData h w files st in
  match nth_error (logs run) (List.length (logs run) - 1) with
  | Some l => String.eqb (message l) "✅ Results ready for review"
  | None => false
  end
  = match results run with Some _ => true | None => false end.
Proof.
  cbv zeta. destruct files as [[ps|] [ts|] [cs|]];
    unfold Part000.analyzeData, Part000.tryBlock, Part000.required,
      bindM, update, lift, ret;
    cbn [personal tickets complaints]; try reflexivity.
  destruct (Common.interestTickets ts) as [interest|e]; [|reflexivity].
  destruct (Common.transferTickets _ ts) as [transfer|e]; reflexivity.
Qed.

(** X16.  Over the log of a finished run of the typed revision, a firing of the
    typing effect starts the timer that shows the results exactly when the
    run stored results and the firing displays the last entry of the log: a
    failed run (missing file, TypeError) never leads to the results being
    shown, and a successful one only once its whole log is displayed. *)
Theorem Part000_results_timer (h : Host) (w : World) (files : FileState)
    (st0 st : State) (r : number)
    (Hlogs : logs st = logs (Part000.analyzeData h w files st0)) :
  snd (Part000View.typingEffect r st) = true
  <-> (exists res, results (Part000.analyzeData h w files st0) = Some res)
      /\ S (List.length (displayedLogs st)) = List.length (logs st).
Proof.
  unfold Part000View.typingEffect.
  pose proof (ready_message_iff_results h w files st0) as M.
  cbv zeta in M. rewrite <- Hlogs in M.
  destruct (Nat.ltb_spec (List.length (displayedLogs st))
              (List.length (logs st))) as [L|L].
  - cbn [snd]. rewrite M.
    destruct (nth_error (logs st) (List.length (displayedLogs st)))
      as [l|] eqn:N; [|apply nth_error_None in N; lia].
    rewrite length_app. cbn [List.length]. rewrite Nat.add_1_r.
    rewrite andb_true_iff, Nat.eqb_eq.
    destruct (results (Part000.analyzeData h w files st0)) as [res|].
    + split; [intros [E _]; eauto | tauto].
    + split; [intros [_ F]; discriminate | intros [[res F] _]; discriminate].
  - cbn [snd]. split; [discriminate | intros [_ E]; lia].
Qed.

(** On the log of a run that lacked the complaints file the timer is never
    started, even by the firing that displays the last entry. *)
Lemma Part000_results_timer_witness :
  let files := {| personal := Some []; tickets := Some [];
                  complaints := None |} in
  let run := Part000.analyzeData Hosts.utc Hosts.noon files Hosts.initial in
  let st := setDisplayedLogs (fun _ => firstn 8 (logs run)) run in
  snd (Part000View.typingEffect (ofZ 0) st) <> true.
Proof.
  intros files run st H.
  apply (Part000_results_timer Hosts.utc Hosts.noon files Hosts.initial st
           (ofZ 0) eq_refl) in H.
  destruct H as [[res E] _]. vm_compute in E. discriminate E.
Defined.
